(** * zCloak SDK: the credential commitment and the credential builders

    A shallow embedding of
    - [packages/vc/src/rootHash.ts]: [rootHashFromMerkle], [calcRoothash];
    - [packages/vc/src/utils.ts]: [keyTypeToSignatureType];
    - the [Credential] class: [signProof], [getRawCredential], [getVC];
    - [protocol/vc/src/credential/vc.ts]: [VerifiableCredentialBuilder];
    - the presentation builder that the presentation test suite drives.

    A JavaScript object used as a dictionary is a finite map, [undefined] is
    [None], a call that may throw returns a [Result], and the calls that
    touch the outside world (the clock, a signer) run in a small
    state-and-error monad whose state records what was asked of the world. *)

From Stdlib Require Import ZArith.
From stdpp Require Import base option strings list gmap.

Local Open Scope string_scope.

(** ** Shared data *)

(** [HexString], [HashType], [DidUrl] and the credential version are string
    types on the TypeScript side. *)
Abbreviation HexString := string (only parsing).
Abbreviation HashType := string (only parsing).
Abbreviation DidUrl := string (only parsing).
Abbreviation VerifiableCredentialVersion := string (only parsing).

(** [Record<HexString, HexString>] *)
Abbreviation NonceMap := (gmap string string) (only parsing).

(** [Uint8Array] *)
Abbreviation U8a := (list Byte.byte) (only parsing).

(** [AnyJson]: numbers are kept as integers, no claim computes with them. *)
#[warnings="-register-all"]
Inductive AnyJson : Type :=
| JNull
| JBool (b : bool)
| JNumber (n : Z)
| JString (s : string)
| JArray (items : list AnyJson)
| JObject (fields : list (string * AnyJson)).

(** The number of leaf claims of a claim set: the data model flattens
    nesting to leaf paths, so a leaf is a value that is neither an object nor
    an array. This is the specification's notion, used only to state claims
    about commitments; no source function computes it. *)
Fixpoint spec_leafCount (j : AnyJson) : nat :=
  match j with
  | JArray items =>
      (fix go (l : list AnyJson) : nat :=
         match l with [] => 0 | x :: l' => spec_leafCount x + go l' end) items
  | JObject fields =>
      (fix go (l : list (string * AnyJson)) : nat :=
         match l with [] => 0 | (_, x) :: l' => spec_leafCount x + go l' end) fields
  | _ => 1
  end.

(** JavaScript truthiness of the values the sources test with [&&], [||],
    [if] and [assert]. An array or an object is always truthy. *)
Definition truthy_string (s : string) : bool :=
  match s with EmptyString => false | _ => true end.

Definition truthy_number (n : Z) : bool := negb (n =? 0)%Z.

Definition truthy_json (j : AnyJson) : bool :=
  match j with
  | JNull => false
  | JBool b => b
  | JNumber n => truthy_number n
  | JString s => truthy_string s
  | JArray _ | JObject _ => true
  end.

(** A call either returns or throws. [assert] of [@polkadot/util] throws an
    error that carries the given message. *)
Inductive Error : Type :=
| AssertionError (message : string)
| ThrownError (message : string)
| CollaboratorError (message : string).

Inductive Result (A : Type) : Type :=
| Returned (a : A)
| Threw (e : Error).
Arguments Returned {A} a.
Arguments Threw {A} e.

(** The [Proof] object of a credential or a presentation; its [type] field
    is [proof_type] here. *)
Record VcProof : Type := {
  proof_type : string;
  created : Z;
  verificationMethod : DidUrl;
  proofPurpose : string;
  proofValue : string
}.

(** ** The outside world *)

(** What is handed to a signer: [Uint8Array | HexString]. *)
Inductive Message : Type :=
| MessageU8a (bytes : U8a)
| MessageHex (hex : HexString).

(** A signature request, in either of the two shapes the sources use:
    [did.signWithKey(message, keyUrl)] and [did.signWithKey(purpose, message)]. *)
Inductive SignRequest : Type :=
| SignWithKeyUrl (did : DidUrl) (message : Message) (keyUrl : DidUrl)
| SignWithPurpose (did : DidUrl) (purpose : string) (message : Message).

(** The world: the readings [Date.now()] will give, how many were taken, and
    the signature requests made so far, oldest first. *)
Record World : Type := {
  clock : nat → Z;
  ticks : nat;
  signed : list SignRequest
}.

Definition Eff (A : Type) : Type := World → Result A * World.

Definition ret {A} (a : A) : Eff A := λ w, (Returned a, w).

Definition bind {A B} (m : Eff A) (k : A → Eff B) : Eff B :=
  λ w, match m w with
       | (Returned a, w') => k a w'
       | (Threw e, w') => (Threw e, w')
       end.

Notation "'let*' x ':=' m 'in' k" := (bind m (λ x, k))
  (at level 10, x name, m at level 100, k at level 200).

Definition throw {A} (e : Error) : Eff A := λ w, (Threw e, w).

(** A call that touches nothing but may throw. *)
Definition call {A} (r : Result A) : Eff A := λ w, (r, w).

(** [assert(condition, message)] *)
Definition assert (condition : bool) (message : string) : Eff unit :=
  if condition then ret tt else throw (AssertionError message).

(** The world after one more reading of the clock, and after one more
    signature request. *)
Definition tick (w : World) : World :=
  {| clock := clock w; ticks := S (ticks w); signed := signed w |}.

Definition record (r : SignRequest) (w : World) : World :=
  {| clock := clock w; ticks := ticks w; signed := signed w ++ [r] |}.

(** [Date.now()] *)
Definition Date_now : Eff Z := λ w, (Returned (clock w (ticks w)), tick w).

(** Making a signature request: the request is recorded, the signer answers. *)
Definition request {A} (r : SignRequest) (answer : Result A) : Eff A :=
  λ w, (answer, record r w).

(** ** packages/vc/src/rootHash.ts *)

Module RootHash.

(** The value the docstring of [calcRoothash] gives for the default of its
    [type] parameter; [./defaults] itself is not among the sources. *)
Definition DEFAULT_ROOT_HASH_TYPE : HashType := "Keccak256".

(** [Omit<RootHashResult, 'type'>] *)
Record MerkleResult : Type := {
  m_hashes : list HexString;
  m_nonceMap : NonceMap;
  m_rootHash : HexString
}.

Record RootHashResult : Type := {
  rootHash : HexString;
  hashes : list HexString;
  nonceMap : NonceMap;
  type : HashType
}.

Definition rootHashFromMerkle (hashes : list HexString) (nonceMap : NonceMap)
  : MerkleResult :=
  {| m_hashes := hashes; m_nonceMap := nonceMap; m_rootHash := "0x" |}.

(** [calcRoothash(input, type = DEFAULT_ROOT_HASH_TYPE, nonceMap?)]: an
    omitted argument is [None]. The body first assigns a fresh empty object
    to its [nonceMap] parameter, then spreads the result of
    [rootHashFromMerkle([], nonceMap)] next to [type]. *)
Definition calcRoothash (input : AnyJson) (type : option HashType)
    (nonceMap : option NonceMap) : RootHashResult :=
  let type := default DEFAULT_ROOT_HASH_TYPE type in
  let nonceMap : NonceMap := ∅ in
  let m := rootHashFromMerkle [] nonceMap in
  {| type := type;
     hashes := m_hashes m;
     nonceMap := m_nonceMap m;
     rootHash := m_rootHash m |}.

(** The commit operation of the hash-commitment engine is the call
    [calcRoothash(claimSet, hashType, existingNonceMap?)]. Its body has no
    [throw], and neither has [rootHashFromMerkle]'s: the call returns. *)
Definition commit (claimSet : AnyJson) (hashType : option HashType)
    (existingNonceMap : option NonceMap) : Result RootHashResult :=
  Returned (calcRoothash claimSet hashType existingNonceMap).

End RootHash.

(** ** packages/vc/src/utils.ts *)

Module Utils.

Definition keyTypeToSignatureType (type : string) : Result string :=
  if String.eqb type "EcdsaSecp256k1VerificationKey2019"
  then Returned "EcdsaSecp256k1Signature2019"
  else if String.eqb type "Ed25519VerificationKey2020"
  then Returned "Ed25519Signature2018"
  else Threw (ThrownError ("Can not transform type: " ++ type)).

End Utils.

(** ** The [Credential] class *)

Module Credential.

(** The signer of this class: [did.signWithKey(purpose, message)] answers
    with [{ didUrl, signature, type }], or throws. *)
Record SignedByPurpose : Type := {
  didUrl : DidUrl;
  signature : U8a;
  keyType : string
}.

Record Did : Type := {
  id : DidUrl;
  signWithKey : string → HexString → Result SignedByPurpose
}.

(** The payload and the result of [calcDigest(payload, hashType)]. *)
Record DigestPayload : Type := {
  dp_rootHash : HexString;
  dp_expirationDate : option Z;
  dp_holder : DidUrl;
  dp_ctype : HexString
}.

Record DigestResult : Type := {
  dr_digest : HexString;
  dr_type : HashType
}.

(** What the class imports from modules that are not among the sources. *)
Record Imports : Type := {
  calcDigest : DigestPayload → option HashType → Result DigestResult;
  base58Encode : U8a → string
}.

(** The fields of the instance (declared in [Base]); an unset field is
    [undefined]. *)
Record Credential : Type := {
  context : option (list string);
  ctype : option HexString;
  issuanceDate : option Z;
  expirationDate : option Z;
  credentialSubject : option AnyJson;
  issuer : option DidUrl;
  holder : option DidUrl;
  digest : option HexString;
  proof : option VcProof;
  hashType : option HashType
}.

Record RawCredential : Type := {
  raw_context : list string;
  raw_version : string;
  raw_ctype : HexString;
  raw_issuanceDate : Z;
  raw_expirationDate : option Z;
  raw_credentialSubject : AnyJson;
  raw_credentialSubjectHashes : list HexString;
  raw_credentialSubjectNonceMap : NonceMap;
  raw_issuer : list DidUrl;
  raw_holder : DidUrl
}.

(** [{ ...raw, digest, proof: [proof] }] *)
Record VerifiableCredential : Type := {
  vc_raw : RawCredential;
  vc_digest : HexString;
  vc_proof : list VcProof
}.

Definition setDigest (c : Credential) (d : HexString) : Credential :=
  {| context := context c; ctype := ctype c; issuanceDate := issuanceDate c;
     expirationDate := expirationDate c;
     credentialSubject := credentialSubject c; issuer := issuer c;
     holder := holder c; digest := Some d; proof := proof c;
     hashType := hashType c |}.

Definition setProof (c : Credential) (p : VcProof) : Credential :=
  {| context := context c; ctype := ctype c; issuanceDate := issuanceDate c;
     expirationDate := expirationDate c;
     credentialSubject := credentialSubject c; issuer := issuer c;
     holder := holder c; digest := digest c; proof := Some p;
     hashType := hashType c |}.

(** [assert(this.field, message)] on an optional field: past the assertion
    the field is known to hold a truthy value. *)
Definition assertField {A} (truthy : A → bool) (field : option A)
    (message : string) : Eff A :=
  match field with
  | Some a => if truthy a then ret a else throw (AssertionError message)
  | None => throw (AssertionError message)
  end.

Section Methods.
Variable I : Imports.

(** [signProof(did)] updates the instance; the updated instance is returned
    here. *)
Definition signProof (this : Credential) (did : Did) : Eff Credential :=
  let* subject := assertField truthy_json (credentialSubject this)
                    "credentialSubject is null" in
  let* holder := assertField truthy_string (holder this) "holder is null" in
  let* ctype := assertField truthy_string (ctype this) "ctype is null" in
  let rootHash :=
    RootHash.rootHash (RootHash.calcRoothash subject (hashType this) None) in
  let* d := call (calcDigest I
                    {| dp_rootHash := rootHash;
                       dp_expirationDate := expirationDate this;
                       dp_holder := holder;
                       dp_ctype := ctype |}
                    (hashType this)) in
  let* s := request (SignWithPurpose (id did) "assertionMethod"
                       (MessageHex (dr_digest d)))
                    (signWithKey did "assertionMethod" (dr_digest d)) in
  let* signatureType := call (Utils.keyTypeToSignatureType (keyType s)) in
  let* now := Date_now in
  let proof :=
    {| proof_type := dr_type d ++ "+" ++ signatureType;
       created := now;
       verificationMethod := didUrl s;
       proofPurpose := "assertionMethod";
       proofValue := base58Encode I (signature s) |} in
  ret (setProof (setDigest this (dr_digest d)) proof).

Definition getRawCredential (this : Credential) : Result RawCredential :=
  match context this, ctype this, issuanceDate this,
        credentialSubject this, issuer this, holder this with
  | Some context, Some ctype, Some issuanceDate,
    Some subject, Some issuer, Some holder =>
      if truthy_string ctype && truthy_number issuanceDate
         && truthy_json subject && truthy_string issuer
         && truthy_string holder
      then
        let r := RootHash.calcRoothash subject (hashType this) None in
        Returned
          {| raw_context := context;
             raw_version := "0";
             raw_ctype := ctype;
             raw_issuanceDate := issuanceDate;
             raw_expirationDate := expirationDate this;
             raw_credentialSubject := subject;
             raw_credentialSubjectHashes := RootHash.hashes r;
             raw_credentialSubjectNonceMap := RootHash.nonceMap r;
             raw_issuer := [issuer];
             raw_holder := holder |}
      else Threw (ThrownError "Not to serialize RawCredential")
  | _, _, _, _, _, _ => Threw (ThrownError "Not to serialize RawCredential")
  end.

Definition getVC (this : Credential) : Result VerifiableCredential :=
  match getRawCredential this with
  | Threw e => Threw e
  | Returned raw =>
      match digest this, proof this with
      | Some digest, Some proof =>
          if truthy_string digest
          then Returned {| vc_raw := raw; vc_digest := digest;
                           vc_proof := [proof] |}
          else Threw (ThrownError
                        "Please sign a proof, or set Digest and proof")
      | _, _ => Threw (ThrownError
                         "Please sign a proof, or set Digest and proof")
      end
  end.

End Methods.

End Credential.

(** ** protocol/vc/src/credential/vc.ts *)

Module VerifiableCredentialBuilder.

(** The issuer: [did.getKeyUrl(purpose)] gives the url of the key for a
    purpose, [did.signWithKey(message, keyUrl)] answers with
    [{ id, signature, type }]; either may throw. *)
Record Signed : Type := {
  signed_id : DidUrl;
  signature : U8a;
  signed_type : string
}.

Record Did : Type := {
  id : DidUrl;
  getKeyUrl : string → Result DidUrl;
  signWithKey : Message → DidUrl → Result Signed
}.

(** [CType], of which the builder reads [$id], and the [Raw] instance, of
    which it reads four fields and calls [checkSubject()]. *)
Record CType : Type := { ctype_id : HexString }.

Record Raw : Type := {
  contents : AnyJson;
  owner : DidUrl;
  ctype : CType;
  hashType : HashType
}.

Record DigestPayload : Type := {
  dp_rootHash : HexString;
  dp_expirationDate : option Z;
  dp_holder : DidUrl;
  dp_ctype : HexString;
  dp_issuanceDate : Z
}.

Record DigestResult : Type := {
  digest : HexString;
  digest_type : HashType
}.

(** Of a [RawCredential] the builder reads [ctype] and [hasher]. *)
Record RawCredential : Type := {
  rc_ctype : HexString;
  rc_hasher : HashType * HashType
}.

(** What the builder imports or calls from modules that are not among the
    sources. [calcRoothash] is [RootHash.calcRoothash]. *)
Record Imports : Type := {
  DEFAULT_CONTEXT : list string;
  DEFAULT_VC_VERSION : VerifiableCredentialVersion;
  isRawCredential : RawCredential → bool;
  Raw_fromRawCredential : RawCredential → CType → Raw;
  checkSubject : Raw → bool;
  calcDigest : VerifiableCredentialVersion → DigestPayload → HashType →
               Result DigestResult;
  signedVCMessage : HexString → VerifiableCredentialVersion → U8a;
  base58Encode : U8a → string
}.

(** [VerifiableCredential<boolean>]: the last three fields are the optional
    ones, absent when [None]. *)
Record VerifiableCredential : Type := {
  vc_context : list string;
  vc_version : VerifiableCredentialVersion;
  vc_ctype : HexString;
  vc_issuanceDate : Z;
  vc_credentialSubject : AnyJson;
  vc_issuer : DidUrl;
  vc_holder : DidUrl;
  vc_hasher : HashType * HashType;
  vc_digest : HexString;
  vc_proof : list VcProof;
  vc_credentialSubjectHashes : option (list HexString);
  vc_credentialSubjectNonceMap : option NonceMap;
  vc_expirationDate : option Z
}.

(** [expirationDate?: number | null] *)
Inductive ExpirationDate : Type :=
| Undefined
| Null
| Timestamp (t : Z).

(** The fields of the builder; [context] is ['@context']. *)
Record Builder : Type := {
  context : option (list string);
  version : option VerifiableCredentialVersion;
  issuanceDate : option Z;
  expirationDate : ExpirationDate;
  raw : Raw;
  digestHashType : option HashType
}.

(** [new VerifiableCredentialBuilder(raw)] *)
Definition new (raw : Raw) : Builder :=
  {| context := None; version := None; issuanceDate := None;
     expirationDate := Undefined; raw := raw; digestHashType := None |}.

Definition setContext (this : Builder) (context : list string) : Builder :=
  {| context := Some context; version := version this;
     issuanceDate := issuanceDate this;
     expirationDate := expirationDate this; raw := raw this;
     digestHashType := digestHashType this |}.

Definition setVersion (this : Builder) (version : VerifiableCredentialVersion)
  : Builder :=
  {| context := context this; version := Some version;
     issuanceDate := issuanceDate this;
     expirationDate := expirationDate this; raw := raw this;
     digestHashType := digestHashType this |}.

Definition setIssuanceDate (this : Builder) (timestamp : Z) : Builder :=
  {| context := context this; version := version this;
     issuanceDate := Some timestamp;
     expirationDate := expirationDate this; raw := raw this;
     digestHashType := digestHashType this |}.

(** [setExpirationDate(timestamp: number | null)]: [None] is [null]. *)
Definition setExpirationDate (this : Builder) (timestamp : option Z)
  : Builder :=
  {| context := context this; version := version this;
     issuanceDate := issuanceDate this;
     expirationDate := from_option Timestamp Null timestamp;
     raw := raw this; digestHashType := digestHashType this |}.

Definition setRaw (this : Builder) (rawIn : Raw) : Builder :=
  {| context := context this; version := version this;
     issuanceDate := issuanceDate this;
     expirationDate := expirationDate this; raw := rawIn;
     digestHashType := digestHashType this |}.

Definition setDigestHashType (this : Builder) (hashType : HashType)
  : Builder :=
  {| context := context this; version := version this;
     issuanceDate := issuanceDate this;
     expirationDate := expirationDate this; raw := raw this;
     digestHashType := Some hashType |}.

(** A call of one of the chained setters, and a chain of them. *)
Inductive Setter : Type :=
| SetContext (context : list string)
| SetVersion (version : VerifiableCredentialVersion)
| SetIssuanceDate (timestamp : Z)
| SetExpirationDate (timestamp : option Z)
| SetRaw (rawIn : Raw)
| SetDigestHashType (hashType : HashType).

Definition applySetter (this : Builder) (s : Setter) : Builder :=
  match s with
  | SetContext c => setContext this c
  | SetVersion v => setVersion this v
  | SetIssuanceDate t => setIssuanceDate this t
  | SetExpirationDate t => setExpirationDate this t
  | SetRaw r => setRaw this r
  | SetDigestHashType h => setDigestHashType this h
  end.

Definition chain (this : Builder) (calls : list Setter) : Builder :=
  foldl applySetter this calls.

Definition isSetExpirationDate (s : Setter) : bool :=
  match s with SetExpirationDate _ => true | _ => false end.

(** [this.expirationDate || undefined], and the test [if (this.expirationDate)]:
    the timestamp when there is a truthy one. *)
Definition truthyExpirationDate (e : ExpirationDate) : option Z :=
  match e with
  | Timestamp t => if truthy_number t then Some t else None
  | Undefined | Null => None
  end.

(** [this.expirationDate !== undefined] *)
Definition isDefined (e : ExpirationDate) : bool :=
  match e with Undefined => false | Null | Timestamp _ => true end.

(** [{ ...vc, credentialSubjectHashes, credentialSubjectNonceMap }] *)
Definition withCommitment (vc : VerifiableCredential)
    (hashes : list HexString) (nonceMap : NonceMap) : VerifiableCredential :=
  {| vc_context := vc_context vc; vc_version := vc_version vc;
     vc_ctype := vc_ctype vc; vc_issuanceDate := vc_issuanceDate vc;
     vc_credentialSubject := vc_credentialSubject vc;
     vc_issuer := vc_issuer vc; vc_holder := vc_holder vc;
     vc_hasher := vc_hasher vc; vc_digest := vc_digest vc;
     vc_proof := vc_proof vc;
     vc_credentialSubjectHashes := Some hashes;
     vc_credentialSubjectNonceMap := Some nonceMap;
     vc_expirationDate := vc_expirationDate vc |}.

(** [vc.expirationDate = this.expirationDate] *)
Definition withExpirationDate (vc : VerifiableCredential) (t : Z)
  : VerifiableCredential :=
  {| vc_context := vc_context vc; vc_version := vc_version vc;
     vc_ctype := vc_ctype vc; vc_issuanceDate := vc_issuanceDate vc;
     vc_credentialSubject := vc_credentialSubject vc;
     vc_issuer := vc_issuer vc; vc_holder := vc_holder vc;
     vc_hasher := vc_hasher vc; vc_digest := vc_digest vc;
     vc_proof := vc_proof vc;
     vc_credentialSubjectHashes := vc_credentialSubjectHashes vc;
     vc_credentialSubjectNonceMap := vc_credentialSubjectNonceMap vc;
     vc_expirationDate := Some t |}.

(** The object [build] returns: the literal assigned to [vc], extended with
    the commitment unless [isPublic], and with [expirationDate] when the
    builder holds a truthy one. *)
Definition credential (this : Builder) (issuer : Did) (isPublic : bool)
    (context : list string) (version : VerifiableCredentialVersion)
    (issuanceDate : Z) (rootHashResult : RootHash.RootHashResult)
    (d : DigestResult) (proof : VcProof) : VerifiableCredential :=
  let vc :=
    {| vc_context := context;
       vc_version := version;
       vc_ctype := ctype_id (ctype (raw this));
       vc_issuanceDate := issuanceDate;
       vc_credentialSubject := contents (raw this);
       vc_issuer := id issuer;
       vc_holder := owner (raw this);
       vc_hasher := (RootHash.type rootHashResult, digest_type d);
       vc_digest := digest d;
       vc_proof := [proof];
       vc_credentialSubjectHashes := None;
       vc_credentialSubjectNonceMap := None;
       vc_expirationDate := None |} in
  let vc :=
    if negb isPublic
    then withCommitment vc (RootHash.hashes rootHashResult)
           (RootHash.nonceMap rootHashResult)
    else vc in
  let vc :=
    match truthyExpirationDate (expirationDate this) with
    | Some t => withExpirationDate vc t
    | None => vc
    end in
  vc.

(** The commitment [build] computes, and the payload it hands to
    [calcDigest]. *)
Definition commitment (this : Builder) (isPublic : bool)
  : RootHash.RootHashResult :=
  if isPublic
  then RootHash.calcRoothash (contents (raw this))
         (Some (hashType (raw this))) None
  else RootHash.calcRoothash (contents (raw this))
         (Some (hashType (raw this))) (Some ∅).

Definition digestPayload (this : Builder) (issuanceDate : Z)
    (rootHashResult : RootHash.RootHashResult) : DigestPayload :=
  {| dp_rootHash := RootHash.rootHash rootHashResult;
     dp_expirationDate := truthyExpirationDate (expirationDate this);
     dp_holder := owner (raw this);
     dp_ctype := ctype_id (ctype (raw this));
     dp_issuanceDate := issuanceDate |}.

Section Methods.
Variable I : Imports.

(** [fromRawCredential(rawCredential, ctype)] *)
Definition fromRawCredential (rawCredential : RawCredential) (ctype : CType)
  : Eff Builder :=
  let* _ := assert (isRawCredential I rawCredential)
                   "input is not a RawCredential object" in
  let* _ := assert (String.eqb (ctype_id ctype) (rc_ctype rawCredential))
                   "`ctype` is not the raw credential ctype" in
  let raw := Raw_fromRawCredential I rawCredential ctype in
  let builder := new raw in
  let builder := setContext builder (DEFAULT_CONTEXT I) in
  let builder := setVersion builder (DEFAULT_VC_VERSION I) in
  let* now := Date_now in
  let builder := setIssuanceDate builder now in
  ret (setDigestHashType builder (snd (rc_hasher rawCredential))).

(** The message [_signDigest] hands to the signer. *)
Definition signedMessage (digest : HexString)
    (version : VerifiableCredentialVersion) : Message :=
  if String.eqb version "1"
  then MessageU8a (signedVCMessage I digest version)
  else MessageHex digest.

Definition _signDigest (did : Did) (digest : HexString)
    (version : VerifiableCredentialVersion) : Eff VcProof :=
  let message := signedMessage digest version in
  let* signDidUrl := call (getKeyUrl did "assertionMethod") in
  let* s := request (SignWithKeyUrl (id did) message signDidUrl)
                    (signWithKey did message signDidUrl) in
  let* now := Date_now in
  ret {| proof_type := signed_type s;
         created := now;
         verificationMethod := signed_id s;
         proofPurpose := "assertionMethod";
         proofValue := base58Encode I (signature s) |}.

(** The body of the [if] of [build], entered with the four tested fields
    narrowed to their values. *)
Definition assemble (this : Builder) (issuer : Did) (isPublic : bool)
    (context : list string) (version : VerifiableCredentialVersion)
    (issuanceDate : Z) (digestHashType : HashType)
  : Eff VerifiableCredential :=
  let rootHashResult := commitment this isPublic in
  let* d := call (calcDigest I version
                    (digestPayload this issuanceDate rootHashResult)
                    digestHashType) in
  let* proof := _signDigest issuer (digest d) version in
  ret (credential this issuer isPublic context version issuanceDate
         rootHashResult d proof).

(** [build(issuer, isPublic?)]: an omitted [isPublic] is [None], and is
    falsy. The promise it returns is the computation; [build] awaits
    [_signDigest] once. *)
Definition build (this : Builder) (issuer : Did) (isPublic : option bool)
  : Eff VerifiableCredential :=
  let* _ := assert (checkSubject I (raw this))
                   "Subject check failed when use ctype" in
  match context this, version this, issuanceDate this,
        digestHashType this with
  | Some context, Some version, Some issuanceDate, Some digestHashType =>
      if truthy_string version && truthy_number issuanceDate
         && truthy_string digestHashType
         && isDefined (expirationDate this)
      then assemble this issuer (default false isPublic)
             context version issuanceDate digestHashType
      else throw (ThrownError "Can not to build an VerifiableCredential")
  | _, _, _, _ =>
      throw (ThrownError "Can not to build an VerifiableCredential")
  end.

End Methods.

End VerifiableCredentialBuilder.

(** ** The presentation builder *)

Module VerifiablePresentationBuilder.
Import VerifiableCredentialBuilder.

(** Modelled from the spec: the module [./vp] ([VerifiablePresentationBuilder],
    [hashDigests]) is missing from the sources, which hold only its test
    suite. The builder below follows the specification of the presentation
    builder: it accumulates credentials with a disclosure mode each, redacts
    each one by its mode, takes the presentation digest over the credentials'
    digests in insertion order and has the holder sign it under the
    authentication purpose. The names of the modes, of the fields of a
    presentation and of the calls are those the test suite uses. *)
Inductive VPType : Type :=
| VP
| VP_Digest
| VP_SelectiveDisclosure.

(** Modelled from the spec: the result of [hashDigests(digests, hashType)],
    the presentation digest over the credentials' digests in their order. *)
Record HashDigestsResult : Type := {
  hash : HexString;
  hash_type : HashType
}.

(** Modelled from the spec: what the builder takes from [./defaults], [./vp]
    and the crypto package, none of which is among the sources. *)
Record Imports : Type := {
  DEFAULT_CONTEXT : list string;
  DEFAULT_VP_VERSION : string;
  DEFAULT_VP_HASH_TYPE : HashType;
  hashDigests : list HexString → HashType → HashDigestsResult;
  base58Encode : U8a → string
}.

(** Modelled from the spec: a presentation, with the fields the test suite
    matches; [vp_context] is ['@context']. *)
Record VerifiablePresentation : Type := {
  vp_context : list string;
  vp_version : string;
  vp_type : list VPType;
  vp_verifiableCredential : list VerifiableCredential;
  vp_id : HexString;
  vp_proof : VcProof;
  vp_hasher : list HashType
}.

(** Modelled from the spec: one accumulated
    [(credential, disclosureMode, selectedFields?)] tuple, and the builder
    [new VerifiablePresentationBuilder(holder)] that [addVC] extends. *)
Record Entry : Type := {
  entry_vc : VerifiableCredential;
  entry_type : VPType;
  entry_selected : list string
}.

(** Modelled from the spec: the builder holds the holder's signer and the
    tuples added so far, in insertion order. *)
Record Builder : Type := {
  holder : Credential.Did;
  entries : list Entry
}.

(** Modelled from the spec: [new VerifiablePresentationBuilder(holder)]. *)
Definition new (holder : Credential.Did) : Builder :=
  {| holder := holder; entries := [] |}.

(** Modelled from the spec: [addVC(vc, type, selectedFields?)] appends one
    tuple. *)
Definition addVC (this : Builder) (vc : VerifiableCredential) (type : VPType)
    (selectedFields : option (list string)) : Builder :=
  {| holder := holder this;
     entries := entries this ++
                [{| entry_vc := vc; entry_type := type;
                    entry_selected := default [] selectedFields |}] |}.

(** Modelled from the spec: a credential with its claim set, field-hash list
    and nonce map replaced, everything else kept. *)
Definition disclose (vc : VerifiableCredential) (subject : AnyJson)
    (hashes : option (list HexString)) (nonceMap : option NonceMap)
  : VerifiableCredential :=
  {| vc_context := vc_context vc; vc_version := vc_version vc;
     vc_ctype := vc_ctype vc; vc_issuanceDate := vc_issuanceDate vc;
     vc_credentialSubject := subject;
     vc_issuer := vc_issuer vc; vc_holder := vc_holder vc;
     vc_hasher := vc_hasher vc; vc_digest := vc_digest vc;
     vc_proof := vc_proof vc;
     vc_credentialSubjectHashes := hashes;
     vc_credentialSubjectNonceMap := nonceMap;
     vc_expirationDate := vc_expirationDate vc |}.

(** Modelled from the spec: the claim set reduced to the named fields with
    their original values; a field that is not in the claim set is skipped. *)
Definition selectClaims (subject : AnyJson) (selected : list string)
  : AnyJson :=
  match subject with
  | JObject fields =>
      JObject (filter (λ kv, kv.1 ∈ selected) fields)
  | other => other
  end.

(** Modelled from the spec: the nonce map reduced to the entries of the named
    fields. The nonce of a field is found under the field's hash, and the
    i-th field hash is the one of the i-th field of the claim set. *)
Definition selectNonces (subject : AnyJson) (hashes : list HexString)
    (nonceMap : NonceMap) (selected : list string) : NonceMap :=
  match subject with
  | JObject fields =>
      let kept :=
        (filter (λ fh, fh.1.1 ∈ selected) (zip fields hashes)).*2 in
      filter (λ kv, kv.1 ∈ kept) nonceMap
  | _ => nonceMap
  end.

(** Modelled from the spec: redaction of one credential by its mode. In
    [VP_Digest] mode the claim set becomes the root hash, which the test
    suite recomputes as
    [calcRoothash(subject, vc.hasher[0], vc.credentialSubjectNonceMap).rootHash]. *)
Definition redact (e : Entry) : VerifiableCredential :=
  let vc := entry_vc e in
  match entry_type e with
  | VP => vc
  | VP_Digest =>
      let rootHash :=
        RootHash.rootHash
          (RootHash.calcRoothash (vc_credentialSubject vc)
             (Some (fst (vc_hasher vc))) (vc_credentialSubjectNonceMap vc)) in
      disclose vc (JString rootHash) (Some []) (Some ∅)
  | VP_SelectiveDisclosure =>
      disclose vc
        (selectClaims (vc_credentialSubject vc) (entry_selected e))
        (vc_credentialSubjectHashes vc)
        ((λ nonceMap,
            selectNonces (vc_credentialSubject vc)
              (default [] (vc_credentialSubjectHashes vc))
              nonceMap (entry_selected e))
           <$> vc_credentialSubjectNonceMap vc)
  end.

Section Methods.
Variable I : Imports.

(** Modelled from the spec: [build()]. The proof has the shape of the one
    [Credential.signProof] makes, with the purpose the test suite expects. *)
Definition build (this : Builder) : Eff VerifiablePresentation :=
  let vcs := redact <$> entries this in
  let h := hashDigests I (vc_digest <$> vcs) (DEFAULT_VP_HASH_TYPE I) in
  let* s := request (SignWithPurpose (Credential.id (holder this))
                       "authentication" (MessageHex (hash h)))
                    (Credential.signWithKey (holder this)
                       "authentication" (hash h)) in
  let* signatureType :=
    call (Utils.keyTypeToSignatureType (Credential.keyType s)) in
  let* now := Date_now in
  ret {| vp_context := DEFAULT_CONTEXT I;
         vp_version := DEFAULT_VP_VERSION I;
         vp_type := entry_type <$> entries this;
         vp_verifiableCredential := vcs;
         vp_id := hash h;
         vp_proof :=
           {| proof_type := signatureType;
              created := now;
              verificationMethod := Credential.didUrl s;
              proofPurpose := "authentication";
              proofValue := base58Encode I (Credential.signature s) |};
         vp_hasher := [hash_type h] |}.

End Methods.

End VerifiablePresentationBuilder.

(** ** Sample data, after the fixtures of the test suites *)

Module Sample.

Definition world : World :=
  {| clock := λ n, (Z.of_nat n + 1667174400000)%Z; ticks := 0; signed := [] |}.

(** The claim set [{ name: 'zCloak' }] and a nonce map with one entry, the
    nonce issued for its leaf. *)
Definition one_claim : AnyJson := JObject [("name", JString "zCloak")].
Definition issued_nonces : NonceMap := {[ "0x6e616d65" := "0x01" ]}.

(** [CONTENTS1] *)
Definition CONTENTS1 : AnyJson :=
  JObject [("name", JString "zCloak"); ("age", JNumber 19);
           ("birthday", JString "2022.10.31"); ("isUser", JBool true)].

Definition issuer : VerifiableCredentialBuilder.Did :=
  {| VerifiableCredentialBuilder.id := "did:zk:issuer";
     VerifiableCredentialBuilder.getKeyUrl :=
       λ purpose, Returned ("did:zk:issuer#" ++ purpose);
     VerifiableCredentialBuilder.signWithKey :=
       λ _ keyUrl,
         Returned
           {| VerifiableCredentialBuilder.signed_id := keyUrl;
              VerifiableCredentialBuilder.signature := [];
              VerifiableCredentialBuilder.signed_type :=
                "EcdsaSecp256k1Signature2019" |} |}.

Definition raw : VerifiableCredentialBuilder.Raw :=
  {| VerifiableCredentialBuilder.contents := CONTENTS1;
     VerifiableCredentialBuilder.owner := "did:zk:holder";
     VerifiableCredentialBuilder.ctype :=
       {| VerifiableCredentialBuilder.ctype_id := "0xc7" |};
     VerifiableCredentialBuilder.hashType := "Rescue" |}.

Definition vcImports : VerifiableCredentialBuilder.Imports :=
  {| VerifiableCredentialBuilder.DEFAULT_CONTEXT :=
       ["https://www.w3.org/2018/credentials/v1"];
     VerifiableCredentialBuilder.DEFAULT_VC_VERSION := "1";
     VerifiableCredentialBuilder.isRawCredential := λ _, true;
     VerifiableCredentialBuilder.Raw_fromRawCredential := λ _ _, raw;
     VerifiableCredentialBuilder.checkSubject := λ _, true;
     VerifiableCredentialBuilder.calcDigest :=
       λ _ payload hashType,
         Returned
           {| VerifiableCredentialBuilder.digest :=
                "0xd1" ++ VerifiableCredentialBuilder.dp_rootHash payload;
              VerifiableCredentialBuilder.digest_type := hashType |};
     VerifiableCredentialBuilder.signedVCMessage :=
       λ digest version,
         String.list_byte_of_string
           ("CredentialVersionedDigest" ++ version ++ digest);
     VerifiableCredentialBuilder.base58Encode := λ _, "z" |}.

(** [new VerifiableCredentialBuilder(raw)] with everything set except the
    expiration date, and the same with [setExpirationDate(null)]. *)
Definition unexpiring : VerifiableCredentialBuilder.Builder :=
  VerifiableCredentialBuilder.chain (VerifiableCredentialBuilder.new raw)
    [VerifiableCredentialBuilder.SetContext
       ["https://www.w3.org/2018/credentials/v1"];
     VerifiableCredentialBuilder.SetVersion "1";
     VerifiableCredentialBuilder.SetIssuanceDate 1667174400000;
     VerifiableCredentialBuilder.SetDigestHashType "Keccak256"].

Definition builder : VerifiableCredentialBuilder.Builder :=
  VerifiableCredentialBuilder.setExpirationDate unexpiring None.

Definition holder : Credential.Did :=
  {| Credential.id := "did:zk:holder";
     Credential.signWithKey :=
       λ purpose _,
         Returned
           {| Credential.didUrl := "did:zk:holder#" ++ purpose;
              Credential.signature := [];
              Credential.keyType := "EcdsaSecp256k1VerificationKey2019" |} |}.

Definition credentialImports : Credential.Imports :=
  {| Credential.calcDigest :=
       λ payload hashType,
         Returned
           {| Credential.dr_digest := "0xd0" ++ Credential.dp_rootHash payload;
              Credential.dr_type := default "Keccak256" hashType |};
     Credential.base58Encode := λ _, "z" |}.

Definition unsigned : Credential.Credential :=
  {| Credential.context := Some ["https://www.w3.org/2018/credentials/v1"];
     Credential.ctype := Some "0xc7";
     Credential.issuanceDate := Some 1667174400000%Z;
     Credential.expirationDate := None;
     Credential.credentialSubject := Some CONTENTS1;
     Credential.issuer := Some "did:zk:issuer";
     Credential.holder := Some "did:zk:holder";
     Credential.digest := None;
     Credential.proof := None;
     Credential.hashType := Some "Keccak256" |}.

Definition vpImports : VerifiablePresentationBuilder.Imports :=
  {| VerifiablePresentationBuilder.DEFAULT_CONTEXT :=
       ["https://www.w3.org/2018/credentials/v1"];
     VerifiablePresentationBuilder.DEFAULT_VP_VERSION := "0";
     VerifiablePresentationBuilder.DEFAULT_VP_HASH_TYPE := "Keccak256";
     VerifiablePresentationBuilder.hashDigests :=
       λ digests hashType,
         {| VerifiablePresentationBuilder.hash :=
              "0x" ++ String.concat EmptyString digests;
            VerifiablePresentationBuilder.hash_type := hashType |};
     VerifiablePresentationBuilder.base58Encode := λ _, "z" |}.

(** A credential as [build] returns it, for the presentation builder. *)
Definition vc : VerifiableCredentialBuilder.VerifiableCredential :=
  VerifiableCredentialBuilder.credential builder issuer false
    ["https://www.w3.org/2018/credentials/v1"] "1" 1667174400000
    (VerifiableCredentialBuilder.commitment builder false)
    {| VerifiableCredentialBuilder.digest := "0xd10x";
       VerifiableCredentialBuilder.digest_type := "Keccak256" |}
    {| proof_type := "EcdsaSecp256k1Signature2019";
       created := 1667174400000;
       verificationMethod := "did:zk:issuer#assertionMethod";
       proofPurpose := "assertionMethod";
       proofValue := "z" |}.

Definition presenting : VerifiablePresentationBuilder.Builder :=
  VerifiablePresentationBuilder.addVC
    (VerifiablePresentationBuilder.new holder) vc
    VerifiablePresentationBuilder.VP_Digest None.

End Sample.

(** ** The object heap of the wasm bridge *)

Module WasmHeap.
Local Close Scope string_scope.

(** A JavaScript value as the heap sees it: [undefined], a number that is a
    natural number and so can index the array, or anything else (any other
    number included). The objects handed to [addHeapObject] are values too. *)
Inductive Value (O : Type) : Type :=
| Undefined
| Number (n : nat)
| Other (o : O).
Arguments Undefined {O}.
Arguments Number {O} n.
Arguments Other {O} o.

(** The two module variables [heap] and [heapNext]. *)
Record Heap (O : Type) : Type := {
  heap : list (Value O);
  heapNext : Value O
}.
Arguments heap {O} h.
Arguments heapNext {O} h.

Section Operations.
Context {O : Type}.

(** [const heap = new Array(32).fill(undefined); let heapNext = heap.length] *)
Definition initial : Heap O :=
  {| heap := replicate 32 Undefined; heapNext := Number 32 |}.

(** [array[i]]: reading past the end gives [undefined]. *)
Definition read (array : list (Value O)) (i : nat) : Value O :=
  default Undefined (array !! i).

(** [array[i] = v]: writing past the end extends the array; the holes this
    leaves read as [undefined]. *)
Definition write (array : list (Value O)) (i : nat) (v : Value O)
  : list (Value O) :=
  if decide (i < length array) then <[i := v]> array
  else (array ++ replicate (i - length array) Undefined ++ [v])%list.

(** [addHeapObject(obj)] returns the index and leaves the new heap. When
    [heapNext] does not hold an index the code reads and writes a named
    property of the array instead of an element; that is outside this model
    and gives [None]. *)
Definition addHeapObject (obj : Value O) (h : Heap O)
  : option (nat * Heap O) :=
  match heapNext h with
  | Number next =>
      let heap1 :=
        if decide (next = length (heap h))
        then (heap h ++ [Number (length (heap h) + 1)])%list
        else heap h in
      let idx := next in
      Some (idx, {| heap := write heap1 idx obj;
                    heapNext := read heap1 idx |})
  | Undefined | Other _ => None
  end.

Definition getObject (idx : nat) (h : Heap O) : Value O :=
  read (heap h) idx.

Definition dropObject (idx : nat) (h : Heap O) : Heap O :=
  if decide (idx < 36) then h
  else {| heap := write (heap h) idx (heapNext h); heapNext := Number idx |}.

Definition takeObject (idx : nat) (h : Heap O) : Value O * Heap O :=
  let ret := getObject idx h in
  (ret, dropObject idx h).

(** The free list: the indices released by [dropObject], the last released
    first. Each free slot holds the index of the next one, the last of them
    holds the length of the array, and [heapNext] holds the first. *)
Fixpoint linked (array : list (Value O)) (free : list nat) (last : nat)
  : Prop :=
  match free with
  | [] => True
  | i :: free' =>
      array !! i = Some (Number (hd last free')) ∧ linked array free' last
  end.

Definition wellFormed (h : Heap O) (free : list nat) : Prop :=
  32 ≤ length (heap h) ∧
  heapNext h = Number (hd (length (heap h)) free) ∧
  NoDup free ∧
  Forall (λ i, 36 ≤ i) free ∧
  linked (heap h) free (length (heap h)).

(** A handle that [addHeapObject] gave out and [dropObject] has not
    released. *)
Definition live (h : Heap O) (free : list nat) (idx : nat) : Prop :=
  32 ≤ idx < length (heap h) ∧ idx ∉ free.

End Operations.

(** A heap after four [addHeapObject] calls on the initial one, with a fifth
    object added and released again: slot 36 is free. *)
Definition fourObjects : Heap string :=
  {| heap := replicate 32 Undefined ++
             [Other "a"; Other "b"; Other "c"; Other "d"];
     heapNext := Number 36 |}.

Definition oneFree : Heap string :=
  {| heap := replicate 32 Undefined ++
             [Other "a"; Other "b"; Other "c"; Other "d"; Number 37];
     heapNext := Number 36 |}.

End WasmHeap.

(** ** packages/verify/src/proofVerify.ts *)

Module ProofVerify.

(** What [proofVerify] imports: [decodeMultibase] may throw, [didVerify]
    resolves the key and checks the signature and so runs in the world. [R]
    is [DidDocument | DidResolver]. *)
Record Imports (R : Type) : Type := {
  decodeMultibase : string → Result U8a;
  didVerify : Message → U8a → string → DidUrl → option R → Eff bool
}.
Arguments decodeMultibase {R} i.
Arguments didVerify {R} i.

(** [proofVerify(message, proof, resolverOrDidDocument?)]: an omitted last
    argument is [None]; [didVerify] called with four arguments gets
    [undefined] as its fifth. *)
Definition proofVerify {R : Type} (I : Imports R) (message : Message)
    (proof : VcProof) (resolverOrDidDocument : option R) : Eff bool :=
  let proofValue := proofValue proof in
  let verificationMethod := verificationMethod proof in
  let* signature := call (decodeMultibase I proofValue) in
  match resolverOrDidDocument with
  | None =>
      didVerify I message signature (proof_type proof) verificationMethod None
  | Some r =>
      didVerify I message signature (proof_type proof) verificationMethod
        (Some r)
  end.

End ProofVerify.

(** ** packages/ctype/src/publish.ts *)

Module CTypePublish.

(** The publisher: [publisher.signWithKey(purpose, message)] answers with
    [{ id, signature }], or throws. *)
Record Signed : Type := {
  signed_id : DidUrl;
  signature : U8a
}.

Record Did : Type := {
  id : DidUrl;
  signWithKey : string → HexString → Result Signed
}.

(** [BaseCType] and [CType] are objects that the code only spreads and
    extends by key: finite maps from keys to JSON values. *)
Abbreviation JsObject := (gmap string AnyJson) (only parsing).

(** What the module imports; [parseDid] stands for [parseDid(_).did] and may
    throw. *)
Record Imports : Type := {
  DEFAULT_CTYPE_SCHEMA : string;
  parseDid : DidUrl → Result string;
  jsonCanonicalize : JsObject → string;
  keccak256AsU8a : string → U8a;
  u8aToHex : U8a → HexString;
  base58Encode : U8a → string
}.

Section Functions.
Variable I : Imports.

(** [getCTypeHash(base, publisher, schema = DEFAULT_CTYPE_SCHEMA)]: in the
    object literal the keys written after [...base] replace those of
    [base]. *)
Definition getCTypeHash (base : JsObject) (publisher : DidUrl)
    (schema : option string) : Result HexString :=
  let schema := default (DEFAULT_CTYPE_SCHEMA I) schema in
  match parseDid I publisher with
  | Threw e => Threw e
  | Returned did =>
      let obj : JsObject :=
        <["publisher" := JString did]>
          (<["$schema" := JString schema]> base) in
      Returned (u8aToHex I (keccak256AsU8a I (jsonCanonicalize I obj)))
  end.

(** [getPublish(base, publisher)]: in the returned literal [...base] comes
    after [$id] and [$schema] and before [publisher] and [signature]. *)
Definition getPublish (base : JsObject) (publisher : Did) : Eff JsObject :=
  let* hash := call (getCTypeHash base (id publisher) None) in
  let* s := request (SignWithPurpose (id publisher) "authentication"
                       (MessageHex hash))
                    (signWithKey publisher "authentication" hash) in
  ret (<["signature" := JString (base58Encode I (signature s))]>
         (<["publisher" := JString (signed_id s)]>
            (base ∪ <["$schema" := JString (DEFAULT_CTYPE_SCHEMA I)]>
                      {["$id" := JString hash]}))).

End Functions.

End CTypePublish.

(** ** Conditions and sample data for the properties below *)

Module Conditions.
Import VerifiableCredentialBuilder.

(** The condition under which [build] enters its [if]: the subject check
    passes, the four tested fields hold truthy values [ctx], [v], [t], [dh]
    and the expiration date is defined. *)
Definition guarded (I : Imports) (this : Builder) (ctx : list string)
    (v : VerifiableCredentialVersion) (t : Z) (dh : HashType) : Prop :=
  checkSubject I (raw this) = true ∧
  context this = Some ctx ∧ version this = Some v ∧
  issuanceDate this = Some t ∧ digestHashType this = Some dh ∧
  truthy_string v = true ∧ truthy_number t = true ∧
  truthy_string dh = true ∧ isDefined (expirationDate this) = true.

(** Whether two setter calls write the same field. *)
Definition sameField (s1 s2 : Setter) : bool :=
  match s1, s2 with
  | SetContext _, SetContext _
  | SetVersion _, SetVersion _
  | SetIssuanceDate _, SetIssuanceDate _
  | SetExpirationDate _, SetExpirationDate _
  | SetRaw _, SetRaw _
  | SetDigestHashType _, SetDigestHashType _ => true
  | _, _ => false
  end.

End Conditions.

Module SampleMore.

(** A raw credential for [Sample.raw] and its ctype. *)
Definition rawCredential : VerifiableCredentialBuilder.RawCredential :=
  {| VerifiableCredentialBuilder.rc_ctype := "0xc7";
     VerifiableCredentialBuilder.rc_hasher := ("Rescue", "Keccak256") |}.

Definition ctype : VerifiableCredentialBuilder.CType :=
  {| VerifiableCredentialBuilder.ctype_id := "0xc7" |}.

(** An issuer whose signer refuses, and a holder with a key of a type that
    [keyTypeToSignatureType] does not know. *)
Definition refusing : VerifiableCredentialBuilder.Did :=
  {| VerifiableCredentialBuilder.id := "did:zk:issuer";
     VerifiableCredentialBuilder.getKeyUrl :=
       λ purpose, Returned ("did:zk:issuer#" ++ purpose);
     VerifiableCredentialBuilder.signWithKey :=
       λ _ _, Threw (CollaboratorError "locked") |}.

Definition x25519Holder : Credential.Did :=
  {| Credential.id := "did:zk:holder";
     Credential.signWithKey :=
       λ purpose _,
         Returned
           {| Credential.didUrl := "did:zk:holder#" ++ purpose;
              Credential.signature := [];
              Credential.keyType := "X25519KeyAgreementKey2019" |} |}.

(** A verifier whose [didVerify] accepts the empty signature under the
    issuer's key, whatever the message. *)
Definition verifyImports : ProofVerify.Imports unit :=
  {| ProofVerify.decodeMultibase :=
       λ value, if String.eqb value "z" then Returned []
                else Threw (ThrownError "Invalid multibase");
     ProofVerify.didVerify :=
       λ _ signature _ verificationMethod _,
         ret (match signature with [] => true | _ => false end
              && String.eqb verificationMethod
                   "did:zk:issuer#assertionMethod") |}.

Definition publisher : CTypePublish.Did :=
  {| CTypePublish.id := "did:zk:publisher";
     CTypePublish.signWithKey :=
       λ purpose _,
         Returned
           {| CTypePublish.signed_id := "did:zk:publisher#" ++ purpose;
              CTypePublish.signature := [] |} |}.

Definition publishImports : CTypePublish.Imports :=
  {| CTypePublish.DEFAULT_CTYPE_SCHEMA :=
       "http://json-schema.org/draft-07/schema#";
     CTypePublish.parseDid := λ didUrl, Returned didUrl;
     CTypePublish.jsonCanonicalize := λ _, "{}";
     CTypePublish.keccak256AsU8a := λ _, [];
     CTypePublish.u8aToHex := λ _, "0x00";
     CTypePublish.base58Encode := λ _, "z" |}.

Definition base : gmap string AnyJson :=
  {[ "title" := JString "member"; "$schema" := JString "mine" ]}.

End SampleMore.

(** ** Properties of the commitment *)

Section RootHashFacts.
Import RootHash.

Lemma calcRoothash_unfold input ty nm :
  calcRoothash input ty nm =
  {| rootHash := "0x"; hashes := []; nonceMap := ∅;
     type := default DEFAULT_ROOT_HASH_TYPE ty |}.
Proof. reflexivity. Qed.

Lemma calcRoothash_nonceMap_empty input ty nm :
  nonceMap (calcRoothash input ty nm) = ∅.
Proof. reflexivity. Qed.

Lemma calcRoothash_hashes_empty input ty nm :
  hashes (calcRoothash input ty nm) = [].
Proof. reflexivity. Qed.

Lemma calcRoothash_rootHash input ty nm :
  rootHash (calcRoothash input ty nm) = "0x".
Proof. reflexivity. Qed.

End RootHashFacts.

(** C1, evaluated on the code: for the claim set [{ name: 'zCloak' }] and the
    nonce map issued for it, [calcRoothash] returns an empty nonce map, so
    the supplied entry is not in the result: the nonce is not reused. *)
Theorem calcRoothash_drops_supplied_nonces :
  Sample.issued_nonces !! "0x6e616d65" = Some "0x01" ∧
  RootHash.nonceMap
    (RootHash.calcRoothash Sample.one_claim (Some "Keccak256")
       (Some Sample.issued_nonces)) !! "0x6e616d65" = None.
Proof.
  split.
  - unfold Sample.issued_nonces. apply lookup_singleton_eq.
  - rewrite calcRoothash_nonceMap_empty. apply lookup_empty.
Qed.

(** C2, evaluated on the code: the claim set [{ name: 'zCloak' }] has one
    leaf claim, yet [calcRoothash] returns no field hash for it, and the root
    hash it returns is the literal ['0x']. *)
Theorem calcRoothash_no_hash_per_leaf :
  spec_leafCount Sample.one_claim = 1 ∧
  RootHash.hashes
    (RootHash.calcRoothash Sample.one_claim (Some "Keccak256") None) = [] ∧
  RootHash.rootHash
    (RootHash.calcRoothash Sample.one_claim (Some "Keccak256") None) = "0x".
Proof. repeat split. Qed.

(** C8: the root hash [calcRoothash] returns does not change when the
    entries of the claim set are permuted, and the root hash
    [rootHashFromMerkle] returns does not change when the field hashes are
    permuted. *)
Theorem rootHash_permutation_invariant
    (fields fields' : list (string * AnyJson)) (H : option HashType)
    (M : option NonceMap) (hs hs' : list HexString) (nm : NonceMap) :
  fields ≡ₚ fields' →
  hs ≡ₚ hs' →
  RootHash.rootHash (RootHash.calcRoothash (JObject fields) H M) =
  RootHash.rootHash (RootHash.calcRoothash (JObject fields') H M) ∧
  RootHash.m_rootHash (RootHash.rootHashFromMerkle hs nm) =
  RootHash.m_rootHash (RootHash.rootHashFromMerkle hs' nm).
Proof. intros _ _. split; reflexivity. Qed.

Lemma rootHash_permutation_invariant_witness :
  RootHash.rootHash
    (RootHash.calcRoothash
       (JObject [("name", JString "zCloak"); ("age", JNumber 19)]) None None) =
  RootHash.rootHash
    (RootHash.calcRoothash
       (JObject [("age", JNumber 19); ("name", JString "zCloak")]) None None) ∧
  RootHash.m_rootHash (RootHash.rootHashFromMerkle ["0x02"; "0x01"] ∅) =
  RootHash.m_rootHash (RootHash.rootHashFromMerkle ["0x01"; "0x02"] ∅).
Proof.
  apply (rootHash_permutation_invariant
           [("name", JString "zCloak"); ("age", JNumber 19)]
           [("age", JNumber 19); ("name", JString "zCloak")]
           None None ["0x02"; "0x01"] ["0x01"; "0x02"] ∅);
    apply perm_swap.
Defined.

(** C9, as the code has it: the commit operation returns a commitment for
    every claim set, also for one with zero leaf claims; the commitment is
    the result of [calcRoothash] and is tagged with the hash type asked for,
    or with the default one. *)
Theorem commit_returns_on_every_claim_set (C : AnyJson)
    (H : option HashType) (M : option NonceMap) :
  ∃ r, RootHash.commit C H M = Returned r ∧
       r = RootHash.calcRoothash C H M ∧
       RootHash.type r = default RootHash.DEFAULT_ROOT_HASH_TYPE H.
Proof. eexists. repeat split. Qed.

(** C9 as stated fails: the empty claim set [{}] has zero leaf claims, and
    the commit operation does not fail on it, it returns a commitment. *)
Lemma commit_empty_claim_set_returns :
  spec_leafCount (JObject []) = 0 ∧
  (¬ ∃ e, RootHash.commit (JObject []) (Some "Keccak256") None = Threw e) ∧
  ∃ r, RootHash.commit (JObject []) (Some "Keccak256") None = Returned r.
Proof.
  split; [reflexivity|]. split.
  - intros [e He]. discriminate He.
  - eexists. reflexivity.
Qed.

(** ** Reasoning about effectful calls *)

Lemma bind_Returned {A B} (m : Eff A) (k : A → Eff B) w b w' :
  bind m k w = (Returned b, w') →
  ∃ a w1, m w = (Returned a, w1) ∧ k a w1 = (Returned b, w').
Proof.
  unfold bind. destruct (m w) as [[a|e] w1]; intros Hk.
  - eauto.
  - discriminate.
Qed.

Lemma bind_Threw_l {A B} (m : Eff A) (k : A → Eff B) w e w' :
  m w = (Threw e, w') → bind m k w = (Threw e, w').
Proof. unfold bind. intros ->. reflexivity. Qed.

Lemma bind_Returned_l {A B} (m : Eff A) (k : A → Eff B) w a w1 :
  m w = (Returned a, w1) → bind m k w = k a w1.
Proof. unfold bind. intros ->. reflexivity. Qed.

Lemma ret_Returned {A} (a b : A) w w' :
  ret a w = (Returned b, w') → a = b ∧ w = w'.
Proof. unfold ret. intros [= -> ->]. auto. Qed.

Lemma call_Returned {A} (r : Result A) a w w' :
  call r w = (Returned a, w') → r = Returned a ∧ w' = w.
Proof. unfold call. intros [= -> ->]. auto. Qed.

Lemma assert_Returned c msg u w w' :
  assert c msg w = (Returned u, w') → c = true ∧ w' = w.
Proof.
  unfold assert. destruct c; cbn; [intros [= _ ->]; auto | discriminate].
Qed.

Lemma assert_false msg w :
  assert false msg w = (Threw (AssertionError msg), w).
Proof. reflexivity. Qed.

Lemma request_Returned {A} r (answer : Result A) a w w' :
  request r answer w = (Returned a, w') →
  answer = Returned a ∧ w' = record r w.
Proof. unfold request. intros [= -> <-]. auto. Qed.

Lemma Date_now_Returned t w w' :
  Date_now w = (Returned t, w') → t = clock w (ticks w) ∧ w' = tick w.
Proof. unfold Date_now. intros [= <- <-]. auto. Qed.

(** Take a returned computation apart, call by call. *)
Ltac returned H :=
  repeat match type of H with
  | bind _ _ _ = (Returned _, _) =>
      let a := fresh "a" in let w := fresh "w" in
      let H1 := fresh "Hcall" in
      apply bind_Returned in H as (a & w & H1 & H)
  end.

(** ** Properties of [VerifiableCredentialBuilder] *)

Section BuilderFacts.
Import VerifiableCredentialBuilder.
Variable I : Imports.

(** What a returning [_signDigest] did. *)
Lemma _signDigest_Returned did digest version w p w' :
  _signDigest I did digest version w = (Returned p, w') →
  ∃ url s,
    getKeyUrl did "assertionMethod" = Returned url ∧
    signWithKey did (signedMessage I digest version) url = Returned s ∧
    p = {| proof_type := signed_type s;
           created := clock w (ticks w);
           verificationMethod := signed_id s;
           proofPurpose := "assertionMethod";
           proofValue := base58Encode I (signature s) |} ∧
    w' = tick (record (SignWithKeyUrl (id did)
                         (signedMessage I digest version) url) w).
Proof.
  unfold _signDigest. intros H. returned H.
  apply call_Returned in Hcall as [Hurl ->].
  apply request_Returned in Hcall0 as [Hs ->].
  apply Date_now_Returned in Hcall1 as [-> ->].
  apply ret_Returned in H as [<- <-].
  exists a, a0. auto.
Qed.

(** Whatever the signer answers, [_signDigest] asks it once, with the key of
    the assertion method. *)
Lemma _signDigest_request did digest version w url :
  getKeyUrl did "assertionMethod" = Returned url →
  signed ((_signDigest I did digest version w).2) =
  (signed w
     ++ [SignWithKeyUrl (id did) (signedMessage I digest version) url])%list.
Proof.
  intros Hurl. unfold _signDigest, bind, call, request. rewrite Hurl.
  destruct (signWithKey did _ url); reflexivity.
Qed.

(** The guard of [build]: the four tested fields hold truthy values and the
    expiration date is defined. *)
Lemma build_guard this issuer isPublic w vc w' :
  build I this issuer isPublic w = (Returned vc, w') →
  checkSubject I (raw this) = true ∧
  ∃ ctx v t dh,
    context this = Some ctx ∧ version this = Some v ∧
    issuanceDate this = Some t ∧ digestHashType this = Some dh ∧
    truthy_string v = true ∧ truthy_number t = true ∧
    truthy_string dh = true ∧ isDefined (expirationDate this) = true ∧
    assemble I this issuer (default false isPublic) ctx v t dh w
    = (Returned vc, w').
Proof.
  unfold build. intros H. returned H.
  apply assert_Returned in Hcall as [Hcheck ->]. split; [done|].
  destruct (context this) as [ctx|]; [|discriminate].
  destruct (version this) as [v|]; [|discriminate].
  destruct (issuanceDate this) as [t|]; [|discriminate].
  destruct (digestHashType this) as [dh|]; [|discriminate].
  destruct (truthy_string v) eqn:Hv; [|discriminate].
  destruct (truthy_number t) eqn:Ht; [|discriminate].
  destruct (truthy_string dh) eqn:Hdh; [|discriminate].
  destruct (isDefined (expirationDate this)) eqn:He; [|discriminate].
  exists ctx, v, t, dh. cbn in H. auto 10.
Qed.

(** What a returning [build] did and what it returns. *)
Lemma build_Returned this issuer isPublic w vc w' :
  build I this issuer isPublic w = (Returned vc, w') →
  ∃ ctx v t dh d url s,
    let pub := default false isPublic in
    let r := commitment this pub in
    let message := signedMessage I (digest d) v in
    context this = Some ctx ∧ version this = Some v ∧
    issuanceDate this = Some t ∧ digestHashType this = Some dh ∧
    calcDigest I v (digestPayload this t r) dh = Returned d ∧
    getKeyUrl issuer "assertionMethod" = Returned url ∧
    signWithKey issuer message url = Returned s ∧
    vc = credential this issuer pub ctx v t r d
           {| proof_type := signed_type s;
              created := clock w (ticks w);
              verificationMethod := signed_id s;
              proofPurpose := "assertionMethod";
              proofValue := base58Encode I (signature s) |} ∧
    w' = tick (record (SignWithKeyUrl (id issuer) message url) w).
Proof.
  intros H. apply build_guard in H
    as (_ & ctx & v & t & dh & Hc & Hv & Ht & Hdh & _ & _ & _ & _ & H).
  unfold assemble in H. returned H.
  apply call_Returned in Hcall as [Hd ->].
  apply _signDigest_Returned in Hcall0 as (url & s & Hurl & Hs & -> & ->).
  apply ret_Returned in H as [<- <-].
  exists ctx, v, t, dh, a, url, s. cbn. auto 10.
Qed.

(** [build] returns when the guard holds and the collaborators answer. *)
Lemma build_returns this issuer isPublic w ctx v t dh d url s :
  let pub := default false isPublic in
  let r := commitment this pub in
  let message := signedMessage I (digest d) v in
  checkSubject I (raw this) = true →
  context this = Some ctx → version this = Some v →
  issuanceDate this = Some t → digestHashType this = Some dh →
  truthy_string v = true → truthy_number t = true →
  truthy_string dh = true → isDefined (expirationDate this) = true →
  calcDigest I v (digestPayload this t r) dh = Returned d →
  getKeyUrl issuer "assertionMethod" = Returned url →
  signWithKey issuer message url = Returned s →
  build I this issuer isPublic w =
  (Returned (credential this issuer pub ctx v t r d
               {| proof_type := signed_type s;
                  created := clock w (ticks w);
                  verificationMethod := signed_id s;
                  proofPurpose := "assertionMethod";
                  proofValue := base58Encode I (signature s) |}),
   tick (record (SignWithKeyUrl (id issuer) message url) w)).
Proof.
  intros pub r message Hcheck Hc Hv Ht Hdh Tv Tt Tdh Te Hd Hurl Hs.
  unfold build, bind, assert. rewrite Hcheck. cbn.
  rewrite Hc, Hv, Ht, Hdh, Tv, Tt, Tdh, Te. cbn.
  unfold assemble, bind, call. fold pub. fold r. rewrite Hd.
  unfold _signDigest, bind, call, request. rewrite Hurl.
  fold message. rewrite Hs. reflexivity.
Qed.

(** The fields of the returned object that do not depend on [isPublic] or on
    the expiration date. *)
Lemma credential_fields this issuer pub ctx v t r d p :
  let vc := credential this issuer pub ctx v t r d p in
  vc_context vc = ctx ∧ vc_version vc = v ∧ vc_issuanceDate vc = t ∧
  vc_issuer vc = id issuer ∧ vc_digest vc = digest d ∧ vc_proof vc = [p] ∧
  vc_hasher vc = (RootHash.type r, digest_type d) ∧
  vc_credentialSubject vc = contents (raw this) ∧
  vc_expirationDate vc = truthyExpirationDate (expirationDate this).
Proof.
  unfold credential.
  destruct pub, (truthyExpirationDate (expirationDate this)); cbn; auto 10.
Qed.

Lemma credential_commitment this issuer pub ctx v t r d p :
  let vc := credential this issuer pub ctx v t r d p in
  vc_credentialSubjectHashes vc =
    (if pub then None else Some (RootHash.hashes r)) ∧
  vc_credentialSubjectNonceMap vc =
    (if pub then None else Some (RootHash.nonceMap r)).
Proof.
  unfold credential.
  destruct pub, (truthyExpirationDate (expirationDate this)); cbn; auto.
Qed.

(** Once the guard holds and the digest is computed, the world [build]
    leaves is the one [_signDigest] leaves, whatever the signer answers. *)
Lemma build_reaches_signer this issuer isPublic w ctx v t dh d :
  checkSubject I (raw this) = true →
  context this = Some ctx → version this = Some v →
  issuanceDate this = Some t → digestHashType this = Some dh →
  truthy_string v = true → truthy_number t = true →
  truthy_string dh = true → isDefined (expirationDate this) = true →
  calcDigest I v
    (digestPayload this t (commitment this (default false isPublic))) dh
  = Returned d →
  (build I this issuer isPublic w).2 = (_signDigest I issuer (digest d) v w).2.
Proof.
  intros Hcheck Hc Hv Ht Hdh Tv Tt Tdh Te Hd.
  unfold build.
  rewrite (bind_Returned_l _ _ w tt w)
    by (unfold assert; rewrite Hcheck; reflexivity).
  rewrite Hc, Hv, Ht, Hdh, Tv, Tt, Tdh, Te. cbn [andb].
  unfold assemble.
  rewrite (bind_Returned_l _ _ w d w)
    by (unfold call; rewrite Hd; reflexivity).
  unfold bind.
  destruct (_signDigest I issuer (digest d) v w) as [[p|e] w1]; reflexivity.
Qed.

(** [build] throws, and asks nothing of the world, when the subject check
    fails or the guard does not hold. *)
Lemma build_throws_unchecked this issuer isPublic w :
  checkSubject I (raw this) = false →
  build I this issuer isPublic w =
  (Threw (AssertionError "Subject check failed when use ctype"), w).
Proof. intros H. unfold build, bind. rewrite H. reflexivity. Qed.

Lemma build_throws_incomplete this issuer isPublic w :
  context this = None ∨ version this = None ∨ issuanceDate this = None ∨
  digestHashType this = None ∨ expirationDate this = Undefined →
  ∃ e, build I this issuer isPublic w = (Threw e, w).
Proof.
  intros H. unfold build, bind, assert.
  destruct (checkSubject I (raw this)); cbn; [|eauto].
  destruct (context this), (version this), (issuanceDate this),
    (digestHashType this); try (eexists; reflexivity);
    destruct H as [H|[H|[H|[H|H]]]]; try discriminate H.
  rewrite H. cbn. rewrite !andb_false_r. eexists. reflexivity.
Qed.

(** A chain of setters without [setExpirationDate] leaves the expiration
    date as it was. *)
Lemma chain_expirationDate calls this :
  Forall (λ s, isSetExpirationDate s = false) calls →
  expirationDate (chain this calls) = expirationDate this.
Proof.
  unfold chain. revert this.
  induction calls as [|s calls IH]; intros this Hall; [reflexivity|].
  apply Forall_cons in Hall as [Hs Hall]. cbn. rewrite (IH _ Hall).
  destruct s; try reflexivity. discriminate Hs.
Qed.

(** [fromRawCredential] does not set the expiration date. *)
Lemma fromRawCredential_expirationDate rawCredential ctype w this w' :
  fromRawCredential I rawCredential ctype w = (Returned this, w') →
  expirationDate this = Undefined.
Proof.
  unfold fromRawCredential. intros H. returned H.
  apply ret_Returned in H as [<- _]. reflexivity.
Qed.

End BuilderFacts.

(** ** Properties of the [Credential] class *)

Section CredentialFacts.
Import Credential.
Variable I : Imports.

Lemma assertField_Returned {A} (truthy : A → bool) field msg a w w' :
  assertField truthy field msg w = (Returned a, w') →
  field = Some a ∧ truthy a = true ∧ w' = w.
Proof.
  unfold assertField. destruct field as [x|]; [|discriminate].
  destruct (truthy x) eqn:Hx; [|discriminate].
  intros [-> ->]%ret_Returned. auto.
Qed.

(** What a returning [signProof] did. *)
Lemma signProof_Returned this did w this' w' :
  signProof I this did w = (Returned this', w') →
  ∃ d s signatureType,
    signWithKey did "assertionMethod" (dr_digest d) = Returned s ∧
    Utils.keyTypeToSignatureType (keyType s) = Returned signatureType ∧
    digest this' = Some (dr_digest d) ∧
    proof this' = Some {| proof_type := dr_type d ++ "+" ++ signatureType;
                          created := clock w (ticks w);
                          verificationMethod := didUrl s;
                          proofPurpose := "assertionMethod";
                          proofValue := base58Encode I (signature s) |} ∧
    w' = tick (record (SignWithPurpose (id did) "assertionMethod"
                         (MessageHex (dr_digest d))) w).
Proof.
  unfold signProof. intros H. returned H.
  apply assertField_Returned in Hcall as (_ & _ & ->).
  apply assertField_Returned in Hcall0 as (_ & _ & ->).
  apply assertField_Returned in Hcall1 as (_ & _ & ->).
  apply call_Returned in Hcall2 as [_ ->].
  apply request_Returned in Hcall3 as [Hs ->].
  apply call_Returned in Hcall4 as [Hty ->].
  apply Date_now_Returned in Hcall5 as [-> ->].
  apply ret_Returned in H as [<- <-].
  exists a2, a3, a4. cbn. auto.
Qed.

(** [getRawCredential] returns a complete object or throws: it throws when
    one of the six fields it tests is unset. *)
Lemma getRawCredential_all_or_nothing this :
  context this = None ∨ ctype this = None ∨ issuanceDate this = None ∨
  credentialSubject this = None ∨ issuer this = None ∨ holder this = None →
  getRawCredential this = Threw (ThrownError "Not to serialize RawCredential").
Proof.
  intros H. unfold getRawCredential.
  destruct (context this), (ctype this), (issuanceDate this),
    (credentialSubject this), (issuer this), (holder this);
    try reflexivity;
    destruct H as [H|[H|[H|[H|[H|H]]]]]; discriminate H.
Qed.

End CredentialFacts.

(** ** Properties of the presentation builder *)

Section PresentationFacts.
Import VerifiableCredentialBuilder VerifiablePresentationBuilder.
Variable I : VerifiablePresentationBuilder.Imports.

(** What a returning [build] did and what it returns. *)
Lemma presentation_build_Returned this w vp w' :
  VerifiablePresentationBuilder.build I this w = (Returned vp, w') →
  ∃ s signatureType,
    let h := hashDigests I (vc_digest <$> (redact <$> entries this))
               (DEFAULT_VP_HASH_TYPE I) in
    Credential.signWithKey (holder this) "authentication" (hash h)
    = Returned s ∧
    vp_verifiableCredential vp = redact <$> entries this ∧
    vp_type vp = entry_type <$> entries this ∧
    vp_id vp = hash h ∧
    vp_proof vp = {| proof_type := signatureType;
                     created := clock w (ticks w);
                     verificationMethod := Credential.didUrl s;
                     proofPurpose := "authentication";
                     proofValue :=
                       VerifiablePresentationBuilder.base58Encode I
                         (Credential.signature s) |} ∧
    w' = tick (record (SignWithPurpose (Credential.id (holder this))
                         "authentication" (MessageHex (hash h))) w).
Proof.
  unfold VerifiablePresentationBuilder.build. intros H. returned H.
  apply request_Returned in Hcall as [Hs ->].
  apply call_Returned in Hcall0 as [_ ->].
  apply Date_now_Returned in Hcall1 as [-> ->].
  apply ret_Returned in H as [<- <-].
  exists a, a0. cbn. auto 10.
Qed.

(** Redaction in [VP_Digest] mode. *)
Lemma redact_VP_Digest e :
  entry_type e = VP_Digest →
  let vc := entry_vc e in
  redact e =
  disclose vc
    (JString (RootHash.rootHash
                (RootHash.calcRoothash (vc_credentialSubject vc)
                   (Some (fst (vc_hasher vc)))
                   (vc_credentialSubjectNonceMap vc))))
    (Some []) (Some ∅).
Proof. unfold redact. intros ->. reflexivity. Qed.

End PresentationFacts.


(** ** The credential builder: what [build] returns, signs and refuses *)

Section BuilderClaims.
Import VerifiableCredentialBuilder.

(** C4: a public credential that [build] returns has neither
    [credentialSubjectHashes] nor [credentialSubjectNonceMap]; a credential
    built with [isPublic] false or omitted has the whole hash list and the
    whole nonce map of the commitment [calcRoothash] computed for it. *)
Theorem build_commitment_by_visibility (I : Imports) (this : Builder)
    (issuer : Did) (isPublic : option bool) (w w' : World)
    (vc : VerifiableCredential) :
  build I this issuer isPublic w = (Returned vc, w') →
  (isPublic = Some true →
     vc_credentialSubjectHashes vc = None ∧
     vc_credentialSubjectNonceMap vc = None) ∧
  (isPublic = Some false ∨ isPublic = None →
     let r := RootHash.calcRoothash (contents (raw this))
                (Some (hashType (raw this))) (Some ∅) in
     vc_credentialSubjectHashes vc = Some (RootHash.hashes r) ∧
     vc_credentialSubjectNonceMap vc = Some (RootHash.nonceMap r)).
Proof.
  intros H.
  apply build_Returned in H
    as (ctx & v & t & dh & d & url & s & _ & _ & _ & _ & _ & _ & _ & -> & _).
  split.
  - intros ->. apply credential_commitment.
  - intros [-> | ->]; apply credential_commitment.
Qed.

Lemma build_commitment_by_visibility_witness :
  ∃ vc w',
    build Sample.vcImports Sample.builder Sample.issuer None Sample.world
    = (Returned vc, w') ∧
    vc_credentialSubjectHashes vc = Some [] ∧
    vc_credentialSubjectNonceMap vc = Some ∅.
Proof.
  eexists _, _. split; [reflexivity|].
  refine (proj2 (build_commitment_by_visibility Sample.vcImports
                   Sample.builder Sample.issuer None Sample.world _ _ _) _);
    [reflexivity | right; reflexivity].
Defined.

(** C6: when [build] has passed its guard and computed the digest, the one
    message it hands to the issuer's signer is [signedVCMessage(digest,
    version)] if the version is ['1'], and the digest itself for every other
    version; this holds whether or not the signer then answers. *)
Theorem build_signed_message_by_version (I : Imports) (this : Builder)
    (issuer : Did) (isPublic : option bool) (w : World)
    (ctx : list string) (v : VerifiableCredentialVersion) (t : Z)
    (dh : HashType) (d : DigestResult) (url : DidUrl) :
  checkSubject I (raw this) = true →
  context this = Some ctx → version this = Some v →
  issuanceDate this = Some t → digestHashType this = Some dh →
  truthy_string v = true → truthy_number t = true →
  truthy_string dh = true → isDefined (expirationDate this) = true →
  calcDigest I v
    (digestPayload this t (commitment this (default false isPublic))) dh
  = Returned d →
  getKeyUrl issuer "assertionMethod" = Returned url →
  let asked := signed ((build I this issuer isPublic w).2) in
  (v = "1" →
     asked = (signed w ++
              [SignWithKeyUrl (id issuer)
                 (MessageU8a (signedVCMessage I (digest d) "1")) url])%list) ∧
  (v ≠ "1" →
     asked = (signed w ++
              [SignWithKeyUrl (id issuer) (MessageHex (digest d)) url])%list).
Proof.
  intros Hcheck Hc Hv Ht Hdh Tv Tt Tdh Te Hd Hurl asked. subst asked.
  rewrite (build_reaches_signer I this issuer isPublic w ctx v t dh d)
    by assumption.
  rewrite (_signDigest_request I issuer (digest d) v w url Hurl).
  unfold signedMessage. split.
  - intros ->. reflexivity.
  - intros Hne%String.eqb_neq. rewrite Hne. reflexivity.
Qed.

Lemma build_signed_message_by_version_witness :
  signed ((build Sample.vcImports Sample.builder Sample.issuer None
             Sample.world).2) =
  [SignWithKeyUrl "did:zk:issuer"
     (MessageU8a
        (signedVCMessage Sample.vcImports "0xd10x" "1"))
     "did:zk:issuer#assertionMethod"].
Proof.
  apply (build_signed_message_by_version Sample.vcImports Sample.builder
           Sample.issuer None Sample.world
           ["https://www.w3.org/2018/credentials/v1"] "1" 1667174400000
           "Keccak256"
           {| digest := "0xd10x"; digest_type := "Keccak256" |}
           "did:zk:issuer#assertionMethod");
    reflexivity.
Defined.

(** C7: [build] is all-or-nothing. When the subject check fails, or the
    context, the version, the issuance date or the digest hash type is not
    set, or the expiration date was left undefined, it throws and has asked
    nothing of the clock or the signer. When it returns, the context, the
    version and the issuance date of the credential are the builder's, the
    digest was computed with the builder's digest hash type, and the
    expiration date is the builder's truthy one or absent: no field is
    filled with a default. *)
Theorem build_all_or_nothing (I : Imports) (this : Builder) (issuer : Did)
    (isPublic : option bool) (w : World) :
  (checkSubject I (raw this) = false ∨
   context this = None ∨ version this = None ∨ issuanceDate this = None ∨
   digestHashType this = None ∨ expirationDate this = Undefined →
   ∃ e, build I this issuer isPublic w = (Threw e, w)) ∧
  (∀ vc w', build I this issuer isPublic w = (Returned vc, w') →
     checkSubject I (raw this) = true ∧
     context this = Some (vc_context vc) ∧
     version this = Some (vc_version vc) ∧
     issuanceDate this = Some (vc_issuanceDate vc) ∧
     (∃ dh d, digestHashType this = Some dh ∧
        calcDigest I (vc_version vc)
          (digestPayload this (vc_issuanceDate vc)
             (commitment this (default false isPublic))) dh = Returned d ∧
        vc_digest vc = digest d ∧ (vc_hasher vc).2 = digest_type d) ∧
     expirationDate this ≠ Undefined ∧
     vc_expirationDate vc = truthyExpirationDate (expirationDate this)).
Proof.
  split.
  - intros [H|H].
    + eexists. by apply build_throws_unchecked.
    + by apply build_throws_incomplete.
  - intros vc w' H.
    pose proof (build_guard I _ _ _ _ _ _ H)
      as (Hcheck & _ & _ & _ & _ & _ & _ & _ & _ & _ & _ & _ & He & _).
    apply build_Returned in H
      as (ctx & v & t & dh & d & url & s & Hc & Hv & Ht & Hdh & Hd & _ & _
          & -> & _).
    pose proof (credential_fields this issuer (default false isPublic) ctx v t
                  (commitment this (default false isPublic)) d
                  {| proof_type := signed_type s;
                     created := clock w (ticks w);
                     verificationMethod := signed_id s;
                     proofPurpose := "assertionMethod";
                     proofValue := base58Encode I (signature s) |})
      as (-> & -> & -> & _ & -> & _ & -> & _ & ->).
    repeat split; try assumption.
    + exists dh, d. auto.
    + intros Hu. rewrite Hu in He. discriminate He.
Qed.

Lemma build_all_or_nothing_witness :
  (∃ e, build Sample.vcImports Sample.unexpiring Sample.issuer None
          Sample.world = (Threw e, Sample.world)) ∧
  context Sample.builder = Some ["https://www.w3.org/2018/credentials/v1"].
Proof.
  destruct (build_all_or_nothing Sample.vcImports Sample.unexpiring
              Sample.issuer None Sample.world) as [Hthrows _].
  destruct (build_all_or_nothing Sample.vcImports Sample.builder
              Sample.issuer None Sample.world) as [_ Hreturns].
  split.
  - apply Hthrows. do 5 right. reflexivity.
  - edestruct Hreturns as (_ & Hc & _); [reflexivity|]. exact Hc.
Defined.

(** C10: a builder made by the constructor, or by [fromRawCredential], and
    configured by any chain of setters that does not call
    [setExpirationDate] cannot be built: [build] throws, whatever else is
    set. After [setExpirationDate(null)] the guard on the expiration date
    holds: if the rest of the guard holds and the collaborators answer,
    [build] returns, and the credential has no [expirationDate] field. *)
Theorem build_requires_expirationDate (I : Imports) (issuer : Did)
    (isPublic : option bool) (w : World) :
  (∀ raw calls,
     Forall (λ s, isSetExpirationDate s = false) calls →
     ∃ e, build I (chain (new raw) calls) issuer isPublic w = (Threw e, w)) ∧
  (∀ rawCredential ctype w0 this w1 calls,
     fromRawCredential I rawCredential ctype w0 = (Returned this, w1) →
     Forall (λ s, isSetExpirationDate s = false) calls →
     ∃ e, build I (chain this calls) issuer isPublic w = (Threw e, w)) ∧
  (∀ this ctx v t dh d url s,
     let this' := setExpirationDate this None in
     checkSubject I (raw this) = true →
     context this = Some ctx → version this = Some v →
     issuanceDate this = Some t → digestHashType this = Some dh →
     truthy_string v = true → truthy_number t = true →
     truthy_string dh = true →
     calcDigest I v
       (digestPayload this' t (commitment this' (default false isPublic))) dh
     = Returned d →
     getKeyUrl issuer "assertionMethod" = Returned url →
     signWithKey issuer (signedMessage I (digest d) v) url = Returned s →
     ∃ vc w', build I this' issuer isPublic w = (Returned vc, w') ∧
              vc_expirationDate vc = None).
Proof.
  repeat split.
  - intros raw calls Hcalls. apply build_throws_incomplete. do 4 right.
    by rewrite chain_expirationDate.
  - intros rawCredential ctype w0 this w1 calls Hfrom Hcalls.
    apply build_throws_incomplete. do 4 right.
    rewrite chain_expirationDate by assumption.
    by eapply fromRawCredential_expirationDate.
  - intros this ctx v t dh d url s this' Hcheck Hc Hv Ht Hdh Tv Tt Tdh Hd
      Hurl Hs.
    eexists _, _. split.
    + by apply (build_returns I this' issuer isPublic w ctx v t dh d url s).
    + apply credential_fields.
Qed.

Lemma build_requires_expirationDate_witness :
  (∃ e, build Sample.vcImports Sample.unexpiring Sample.issuer None
          Sample.world = (Threw e, Sample.world)) ∧
  (∃ vc w', build Sample.vcImports Sample.builder Sample.issuer None
              Sample.world = (Returned vc, w') ∧
            vc_expirationDate vc = None).
Proof.
  destruct (build_requires_expirationDate Sample.vcImports Sample.issuer None
              Sample.world) as (Hnew & _ & Hnull).
  split.
  - apply (Hnew Sample.raw). repeat constructor.
  - apply (Hnull Sample.unexpiring
             ["https://www.w3.org/2018/credentials/v1"] "1" 1667174400000%Z
             "Keccak256"
             {| digest := "0xd10x"; digest_type := "Keccak256" |}
             "did:zk:issuer#assertionMethod"
             {| signed_id := "did:zk:issuer#assertionMethod";
                signature := [];
                signed_type := "EcdsaSecp256k1Signature2019" |});
      reflexivity.
Defined.

End BuilderClaims.

(** ** Which key signs what *)

(** C5: the proof of a credential that [VerifiableCredentialBuilder.build]
    returns was signed with the key the issuer keeps for the assertion
    method, and has the proof purpose ['assertionMethod']; the same holds
    for the proof [Credential.signProof] adds; the proof of a presentation
    that the presentation builder returns was signed by the holder under the
    authentication purpose. In each case exactly one signature was asked
    for. *)
Theorem proofs_bound_to_key_purpose :
  (∀ (I : VerifiableCredentialBuilder.Imports) this issuer isPublic w vc w',
     VerifiableCredentialBuilder.build I this issuer isPublic w
     = (Returned vc, w') →
     ∃ url message s p,
       VerifiableCredentialBuilder.getKeyUrl issuer "assertionMethod"
       = Returned url ∧
       VerifiableCredentialBuilder.signWithKey issuer message url
       = Returned s ∧
       signed w' =
       (signed w ++
        [SignWithKeyUrl (VerifiableCredentialBuilder.id issuer) message url])
         %list ∧
       VerifiableCredentialBuilder.vc_proof vc = [p] ∧
       proofPurpose p = "assertionMethod" ∧
       verificationMethod p = VerifiableCredentialBuilder.signed_id s ∧
       proofValue p =
       VerifiableCredentialBuilder.base58Encode I
         (VerifiableCredentialBuilder.signature s)) ∧
  (∀ (I : Credential.Imports) this did w this' w',
     Credential.signProof I this did w = (Returned this', w') →
     ∃ digest s p,
       Credential.signWithKey did "assertionMethod" digest = Returned s ∧
       signed w' =
       (signed w ++
        [SignWithPurpose (Credential.id did) "assertionMethod"
           (MessageHex digest)])%list ∧
       Credential.digest this' = Some digest ∧
       Credential.proof this' = Some p ∧
       proofPurpose p = "assertionMethod" ∧
       verificationMethod p = Credential.didUrl s ∧
       proofValue p = Credential.base58Encode I (Credential.signature s)) ∧
  (∀ (I : VerifiablePresentationBuilder.Imports) this w vp w',
     VerifiablePresentationBuilder.build I this w = (Returned vp, w') →
     ∃ s,
       let holder := VerifiablePresentationBuilder.holder this in
       let p := VerifiablePresentationBuilder.vp_proof vp in
       let id := VerifiablePresentationBuilder.vp_id vp in
       Credential.signWithKey holder "authentication" id = Returned s ∧
       signed w' =
       (signed w ++
        [SignWithPurpose (Credential.id holder) "authentication"
           (MessageHex id)])%list ∧
       proofPurpose p = "authentication" ∧
       verificationMethod p = Credential.didUrl s ∧
       proofValue p =
       VerifiablePresentationBuilder.base58Encode I (Credential.signature s)).
Proof.
  repeat split.
  - intros I this issuer isPublic w vc w' H.
    apply build_Returned in H
      as (ctx & v & t & dh & d & url & s & _ & _ & _ & _ & _ & Hurl & Hs
          & -> & ->).
    eexists url, _, s, _. split; [exact Hurl|]. split; [exact Hs|].
    split; [reflexivity|]. split; [apply credential_fields|]. auto.
  - intros I this did w this' w' H.
    apply signProof_Returned in H
      as (d & s & signatureType & Hs & _ & Hd & Hp & ->).
    eexists _, s, _. split; [exact Hs|]. split; [reflexivity|].
    split; [exact Hd|]. split; [exact Hp|]. auto.
  - intros I this w vp w' H.
    apply presentation_build_Returned in H
      as (s & signatureType & Hs & _ & _ & Hid & Hp & ->).
    exists s. cbn. rewrite Hid, Hp. cbn. auto.
Qed.

Lemma proofs_bound_to_key_purpose_witness :
  (∃ p, VerifiableCredentialBuilder.vc_proof
          (match (VerifiableCredentialBuilder.build Sample.vcImports
                    Sample.builder Sample.issuer None Sample.world).1 with
           | Returned vc => vc
           | Threw _ => Sample.vc
           end) = [p] ∧
        proofPurpose p = "assertionMethod") ∧
  (∃ this' w' p,
     Credential.signProof Sample.credentialImports Sample.unsigned
       Sample.holder Sample.world = (Returned this', w') ∧
     Credential.proof this' = Some p ∧
     proofPurpose p = "assertionMethod") ∧
  (∃ vp w',
     VerifiablePresentationBuilder.build Sample.vpImports Sample.presenting
       Sample.world = (Returned vp, w') ∧
     proofPurpose (VerifiablePresentationBuilder.vp_proof vp)
     = "authentication").
Proof.
  destruct proofs_bound_to_key_purpose as (Hvc & Hsign & Hvp).
  split; [|split].
  - edestruct (Hvc Sample.vcImports Sample.builder Sample.issuer None
                 Sample.world)
      as (url & message & s & p & _ & _ & _ & Hp & Hpurpose & _);
      [reflexivity|].
    exists p. split; [exact Hp | exact Hpurpose].
  - edestruct (Hsign Sample.credentialImports Sample.unsigned Sample.holder
                 Sample.world)
      as (digest & s & p & _ & _ & _ & Hp & Hpurpose & _);
      [vm_compute; reflexivity|].
    eexists _, _, p. split; [vm_compute; reflexivity|].
    split; [exact Hp | exact Hpurpose].
  - edestruct (Hvp Sample.vpImports Sample.presenting Sample.world)
      as (s & _ & _ & Hpurpose & _); [reflexivity|].
    eexists _, _. split; [reflexivity | exact Hpurpose].
Defined.

(** ** Redaction in a presentation *)

Section PresentationClaims.
Import VerifiableCredentialBuilder VerifiablePresentationBuilder.

(** C3: in a presentation that the builder returns, a credential added in
    [VP_Digest] mode stands at its place of insertion with its
    [credentialSubject] replaced by the root hash of its claim set, its
    [credentialSubjectHashes] and [credentialSubjectNonceMap] empty, and its
    [digest] and [proof] those of the credential that was added. *)
Theorem digest_only_redaction (I : VerifiablePresentationBuilder.Imports)
    (this : VerifiablePresentationBuilder.Builder) (w w' : World)
    (vp : VerifiablePresentation) (i : nat) (e : Entry) :
  VerifiablePresentationBuilder.build I this w = (Returned vp, w') →
  entries this !! i = Some e →
  entry_type e = VP_Digest →
  ∃ vc',
    let vc := entry_vc e in
    vp_verifiableCredential vp !! i = Some vc' ∧
    vp_type vp !! i = Some VP_Digest ∧
    vc_credentialSubject vc' =
    JString (RootHash.rootHash
               (RootHash.calcRoothash (vc_credentialSubject vc)
                  (Some (fst (vc_hasher vc)))
                  (vc_credentialSubjectNonceMap vc))) ∧
    vc_credentialSubjectHashes vc' = Some [] ∧
    vc_credentialSubjectNonceMap vc' = Some ∅ ∧
    vc_digest vc' = vc_digest vc ∧
    vc_proof vc' = vc_proof vc.
Proof.
  intros H Hi Hmode.
  apply presentation_build_Returned in H
    as (s & signatureType & _ & Hvcs & Htypes & _).
  exists (redact e). cbn.
  rewrite Hvcs, Htypes, !list_lookup_fmap, Hi. cbn.
  rewrite (redact_VP_Digest e Hmode), Hmode. cbn. auto 10.
Qed.

Lemma digest_only_redaction_witness :
  ∃ vp w' vc',
    VerifiablePresentationBuilder.build Sample.vpImports Sample.presenting
      Sample.world = (Returned vp, w') ∧
    vp_verifiableCredential vp !! 0 = Some vc' ∧
    vc_credentialSubject vc' = JString "0x" ∧
    vc_credentialSubjectHashes vc' = Some [] ∧
    vc_credentialSubjectNonceMap vc' = Some ∅ ∧
    vc_digest vc' = vc_digest Sample.vc ∧
    vc_proof vc' = vc_proof Sample.vc.
Proof.
  destruct (VerifiablePresentationBuilder.build Sample.vpImports
              Sample.presenting Sample.world) as [[vp|err] w'] eqn:Hbuild;
    [|vm_compute in Hbuild; discriminate Hbuild].
  destruct (digest_only_redaction Sample.vpImports Sample.presenting
              Sample.world w' vp 0
              {| entry_vc := Sample.vc; entry_type := VP_Digest;
                 entry_selected := [] |} Hbuild eq_refl eq_refl)
    as (vc' & Hat & _ & Hsubject & Hhashes & Hnonces & Hdigest & Hproof).
  exists vp, w', vc'. split; [reflexivity|]. auto 10.
Defined.

End PresentationClaims.

(** ** Properties of the object heap *)

Section WasmHeapFacts.
Import WasmHeap.
Local Close Scope string_scope.
Context {O : Type}.
Implicit Types (h : Heap O) (obj v : Value O) (free : list nat).

Lemma read_write_eq (array : list (Value O)) i v :
  read (write array i v) i = v.
Proof.
  unfold read, write. case_decide as Hi.
  - by rewrite list_lookup_insert_eq.
  - rewrite lookup_app_r by lia.
    rewrite lookup_app_r by (rewrite length_replicate; lia).
    rewrite length_replicate.
    replace (i - length array - (i - length array)) with 0 by lia.
    reflexivity.
Qed.

Lemma read_write_ne (array : list (Value O)) i j v :
  i ≠ j → j < length array → read (write array i v) j = read array j.
Proof.
  intros Hne Hj. unfold read, write. case_decide as Hi.
  - by rewrite list_lookup_insert_ne.
  - by rewrite lookup_app_l.
Qed.

Lemma length_write_lt (array : list (Value O)) i v :
  i < length array → length (write array i v) = length array.
Proof.
  intros Hi. unfold write. rewrite decide_True by done.
  apply length_insert.
Qed.

Lemma linked_insert (array : list (Value O)) free last i v :
  i ∉ free → linked array free last → linked (<[i := v]> array) free last.
Proof.
  induction free as [|j free IH]; [done|].
  intros Hi [Hj Hrest]. cbn. split.
  - rewrite list_lookup_insert_ne; [done|]. set_solver.
  - apply IH; [set_solver | done].
Qed.

Lemma linked_lt (array : list (Value O)) free last i :
  linked array free last → i ∈ free → i < length array.
Proof.
  induction free as [|j free IH]; [set_solver|].
  intros [Hj Hrest] [->|Hi]%elem_of_cons.
  - by eapply lookup_lt_Some.
  - by apply IH.
Qed.

(** What [addHeapObject] does on a well-formed heap. *)
Lemma addHeapObject_wellFormed h free obj :
  wellFormed h free →
  ∃ h',
    addHeapObject obj h = Some (hd (length (heap h)) free, h') ∧
    wellFormed h' (tl free) ∧
    length (heap h') =
      (if decide (free = []) then S (length (heap h)) else length (heap h)) ∧
    heap h' = <[hd (length (heap h)) free := obj]>
                (if decide (free = [])
                 then heap h ++ [Number (length (heap h) + 1)]
                 else heap h).
Proof.
  intros (Hlen & Hnext & Hnodup & Hge & Hlinked).
  unfold addHeapObject. rewrite Hnext.
  destruct free as [|i free]; cbn [hd tl] in *.
  - rewrite !decide_True by done. eexists. split; [reflexivity|].
    assert (Hw : write (heap h ++ [Number (length (heap h) + 1)])
                   (length (heap h)) obj
                 = <[length (heap h) := obj]>
                     (heap h ++ [Number (length (heap h) + 1)])).
    { unfold write. rewrite decide_True; [done|].
      rewrite length_app. cbn. lia. }
    rewrite Hw. cbn [heap heapNext].
    assert (Hl : length (<[length (heap h) := obj]>
                          (heap h ++ [Number (length (heap h) + 1)]))
                 = S (length (heap h))).
    { rewrite length_insert, length_app. cbn. lia. }
    split; [|split; [exact Hl | done]].
    unfold wellFormed. cbn [heap heapNext hd linked]. rewrite Hl.
    split; [lia|]. split.
    + unfold read. rewrite lookup_app_r by lia.
      replace (length (heap h) - length (heap h)) with 0 by lia. cbn.
      f_equal. lia.
    + split; [constructor|]. split; [constructor | done].
  - destruct Hlinked as [Hi Hrest].
    pose proof (lookup_lt_Some _ _ _ Hi) as Hlt.
    rewrite decide_False by lia.
    rewrite !(decide_False (P := (i :: free = []))) by done.
    eexists. split; [reflexivity|].
    assert (Hw : write (heap h) i obj = <[i := obj]> (heap h)).
    { unfold write. by rewrite decide_True. }
    rewrite Hw. cbn [heap heapNext].
    apply NoDup_cons in Hnodup as [Hnotin Hnodup].
    apply Forall_cons in Hge as [_ Hge].
    split; [|split; [by rewrite length_insert | done]].
    unfold wellFormed. cbn [heap heapNext]. rewrite length_insert.
    split; [done|]. split.
    + unfold read. rewrite Hi. reflexivity.
    + split; [done|]. split; [done|]. by apply linked_insert.
Qed.

(** What [dropObject] does to a live handle on a well-formed heap. *)
Lemma dropObject_wellFormed h free idx :
  wellFormed h free → live h free idx → 36 ≤ idx →
  wellFormed (dropObject idx h) (idx :: free) ∧
  length (heap (dropObject idx h)) = length (heap h).
Proof.
  intros (Hlen & Hnext & Hnodup & Hge & Hlinked) [[_ Hlt] Hnotin] Hidx.
  unfold dropObject. rewrite decide_False by lia.
  assert (Hw : write (heap h) idx (heapNext h) = <[idx := heapNext h]> (heap h)).
  { unfold write. by rewrite decide_True. }
  rewrite Hw. cbn [heap heapNext]. rewrite length_insert. split; [|done].
  unfold wellFormed. cbn [heap heapNext hd linked]. rewrite length_insert.
  split; [done|]. split; [done|].
  split; [by apply NoDup_cons|]. split; [by apply Forall_cons|].
  split.
  - rewrite list_lookup_insert_eq by done. by rewrite Hnext.
  - by apply linked_insert.
Qed.

Lemma initial_wellFormed : wellFormed (@initial O) [].
Proof.
  unfold wellFormed, initial. cbn [heap heapNext hd linked].
  rewrite length_replicate. repeat split; [lia | constructor | constructor].
Qed.

Lemma fourObjects_wellFormed : wellFormed fourObjects [].
Proof.
  unfold wellFormed. cbn.
  repeat split; [lia | constructor | constructor].
Qed.

Lemma oneFree_wellFormed : wellFormed oneFree [36].
Proof.
  unfold wellFormed. cbn. repeat split; try lia.
  - apply NoDup_singleton.
  - repeat constructor.
Qed.

End WasmHeapFacts.

Section WasmHeapProperties.
Import WasmHeap.
Local Close Scope string_scope.

(** X1: the free list of the object heap is an invariant. It holds of the
    initial heap; on a heap where it holds, [addHeapObject] finds an index
    in [heapNext], returns the head of the free list (or the length of the
    array when no slot is free, growing the array by one) and keeps the
    invariant; [dropObject] of a live handle keeps it too, with the handle
    put in front of the free list unless it is below 36. *)
Theorem heap_free_list_invariant {O : Type} :
  wellFormed (@initial O) [] ∧
  (∀ (h : Heap O) free obj,
     wellFormed h free →
     ∃ h', addHeapObject obj h = Some (hd (length (heap h)) free, h') ∧
           wellFormed h' (tl free) ∧
           length (heap h') =
           if decide (free = []) then S (length (heap h))
           else length (heap h)) ∧
  (∀ (h : Heap O) free idx,
     wellFormed h free → live h free idx →
     wellFormed (dropObject idx h)
       (if decide (idx < 36) then free else idx :: free) ∧
     length (heap (dropObject idx h)) = length (heap h)).
Proof.
  split; [apply initial_wellFormed|]. split.
  - intros h free obj Hwf.
    destruct (addHeapObject_wellFormed h free obj Hwf)
      as (h' & Hadd & Hwf' & Hlen & _). eauto.
  - intros h free idx Hwf Hlive. case_decide as Hidx.
    + unfold dropObject. by rewrite decide_True.
    + apply dropObject_wellFormed; [done | done | lia].
Qed.

Lemma heap_free_list_invariant_witness :
  (∃ h', addHeapObject (Other "e") oneFree = Some (36, h') ∧
         wellFormed h' []) ∧
  wellFormed (dropObject 34 fourObjects) [].
Proof.
  destruct (@heap_free_list_invariant string) as (_ & Hadd & Hdrop).
  split.
  - destruct (Hadd oneFree [36] (Other "e") oneFree_wellFormed)
      as (h' & Hh' & Hwf & _). eauto.
  - apply (Hdrop fourObjects [] 34 fourObjects_wellFormed).
    unfold live. cbn. split; [lia | apply not_elem_of_nil].
Defined.

(** The handle [addHeapObject] returns, and the handles it leaves alone. *)
Lemma addHeapObject_handles {O : Type} (h h' : Heap O)
    (free : list nat) (obj : Value O) (idx : nat) :
  wellFormed h free →
  addHeapObject obj h = Some (idx, h') →
  getObject idx h' = obj ∧
  32 ≤ idx ∧
  ¬ live h free idx ∧
  live h' (tl free) idx ∧
  ∀ j, live h free j →
       j ≠ idx ∧ live h' (tl free) j ∧ getObject j h' = getObject j h.
Proof.
  intros Hwf Hadd.
  destruct (addHeapObject_wellFormed h free obj Hwf)
    as (h1 & Hadd1 & Hwf1 & Hlen1 & Hheap1).
  rewrite Hadd in Hadd1. injection Hadd1 as -> <-.
  destruct Hwf as (Hlen & Hnext & Hnodup & Hge & Hlinked).
  assert (Hfresh : ∀ j, live h free j → j ≠ hd (length (heap h)) free).
  { intros j [[_ Hj] Hnotin] ->. destruct free as [|i free]; cbn in *.
    - lia.
    - apply Hnotin. apply list_elem_of_here. }
  assert (Hidx : hd (length (heap h)) free < length (heap h')).
  { rewrite Hlen1. destruct free as [|i free]; cbn.
    - rewrite decide_True by done. lia.
    - rewrite decide_False by done. destruct Hlinked as [Hi _].
      by eapply lookup_lt_Some. }
  split; [|split; [|split; [|split]]].
  - unfold getObject, read. rewrite Hheap1.
    rewrite list_lookup_insert_eq; [done|].
    rewrite Hheap1, length_insert in Hidx. done.
  - destruct free as [|i free]; cbn; [done|].
    apply Forall_cons in Hge as [Hi _]. lia.
  - intros Hlive. by apply (Hfresh _ Hlive).
  - split; [split; [|done]|].
    + destruct free as [|i free]; cbn; [done|].
      apply Forall_cons in Hge as [Hi _]. lia.
    + destruct free as [|i free]; cbn; [apply not_elem_of_nil|].
      by apply NoDup_cons in Hnodup as [Hnotin _].
  - intros j Hj. pose proof (Hfresh j Hj) as Hne.
    destruct Hj as [[Hj32 Hjlt] Hjfree].
    split; [done|]. split.
    + split.
      * split; [done|]. rewrite Hlen1. case_decide; lia.
      * intros Hin. apply Hjfree. destruct free; [done|].
        by apply list_elem_of_further.
    + unfold getObject, read. rewrite Hheap1.
      rewrite list_lookup_insert_ne by done.
      case_decide; [|done]. by rewrite lookup_app_l.
Qed.

(** X2: on a well-formed heap the handle [addHeapObject] returns is fresh
    and at least 32, the object is read back under it by [getObject], and
    every handle that was live before is still live and still reads the
    same object. *)
Theorem addHeapObject_fresh_and_framed {O : Type} (h h' : Heap O)
    (free : list nat) (obj : Value O) (idx : nat) :
  wellFormed h free →
  addHeapObject obj h = Some (idx, h') →
  getObject idx h' = obj ∧
  32 ≤ idx ∧
  ¬ live h free idx ∧
  live h' (tl free) idx ∧
  ∀ j, live h free j →
       j ≠ idx ∧ live h' (tl free) j ∧ getObject j h' = getObject j h.
Proof. apply addHeapObject_handles. Qed.

Lemma addHeapObject_fresh_and_framed_witness :
  ∃ h', addHeapObject (Other "e") fourObjects = Some (36, h') ∧
        getObject 36 h' = Other "e" ∧
        getObject 33 h' = Other "b".
Proof.
  eexists. split; [reflexivity|].
  destruct (addHeapObject_fresh_and_framed fourObjects _ [] (Other "e") 36
              fourObjects_wellFormed eq_refl)
    as (Hget & _ & _ & _ & Hframe).
  split; [exact Hget|].
  destruct (Hframe 33) as (_ & _ & Hsame); [|exact Hsame].
  unfold live. cbn. split; [lia | apply not_elem_of_nil].
Defined.

(** X3: on a well-formed heap, [takeObject] of the handle that
    [addHeapObject] has just returned gives the object back and, when the
    handle is 36 or more, releases the slot: the next [addHeapObject]
    returns the same handle, and if the slot had come from the free list the
    heap is exactly what it was before the object was added. *)
Theorem takeObject_after_addHeapObject {O : Type} (h h' : Heap O)
    (free : list nat) (obj obj' : Value O) (idx : nat) :
  wellFormed h free →
  addHeapObject obj h = Some (idx, h') →
  36 ≤ idx →
  let (ret, h'') := takeObject idx h' in
  ret = obj ∧
  wellFormed h'' (idx :: tl free) ∧
  (∃ h3, addHeapObject obj' h'' = Some (idx, h3) ∧
         getObject idx h3 = obj') ∧
  (free ≠ [] → h'' = h).
Proof.
  intros Hwf Hadd Hidx.
  destruct (addHeapObject_handles h h' free obj idx Hwf Hadd)
    as (Hget & _ & _ & Hlive & _).
  destruct (addHeapObject_wellFormed h free obj Hwf)
    as (h1 & Hadd1 & Hwf1 & Hlen1 & Hheap1).
  rewrite Hadd in Hadd1. injection Hadd1 as Hidx1 <-.
  unfold takeObject. split; [exact Hget|].
  destruct (dropObject_wellFormed h' (tl free) idx Hwf1 Hlive Hidx)
    as [Hwf2 Hlen2].
  split; [exact Hwf2|]. split.
  - destruct (addHeapObject_wellFormed _ _ obj' Hwf2)
      as (h3 & Hadd3 & Hwf3 & _ & _). cbn [hd] in Hadd3.
    exists h3. split; [exact Hadd3|].
    by destruct (addHeapObject_handles _ _ _ _ _ Hwf2 Hadd3).
  - intros Hfree. destruct free as [|i free]; [done|]. cbn [hd tl] in *.
    subst idx.
    destruct Hwf as (Hlen & Hnext & Hnodup & Hge & Hi & Hlinked).
    destruct Hwf1 as (_ & Hnext1 & _).
    rewrite decide_False in Hheap1 by done.
    unfold dropObject. rewrite decide_False by lia.
    unfold write. rewrite decide_True by (rewrite Hlen1; case_decide;
      [done | by eapply lookup_lt_Some]).
    rewrite Hnext1, Hheap1, list_insert_insert_eq, length_insert.
    rewrite list_insert_id by done.
    destruct h as [heap0 next0]. cbn in *. by rewrite Hnext.
Qed.

Lemma takeObject_after_addHeapObject_witness :
  ∃ h', addHeapObject (Other "e") oneFree = Some (36, h') ∧
        takeObject 36 h' = (Other "e", oneFree).
Proof.
  eexists. split; [reflexivity|].
  pose proof (takeObject_after_addHeapObject oneFree _ [36] (Other "e")
                (Other "f") 36 oneFree_wellFormed eq_refl (le_n 36)) as H.
  destruct (takeObject 36 _) as [ret h''].
  destruct H as (-> & _ & _ & Hsame). by rewrite Hsame.
Defined.



(** X5: releasing a handle twice breaks the heap. After two [dropObject]
    calls on the same handle (36 or more, inside the array), the next two
    [addHeapObject] calls both
    return that handle: the second object overwrites the first, and the
    first object is what the second call leaves in [heapNext]. *)
Theorem dropObject_twice_aliases {O : Type} (h : Heap O) (idx : nat)
    (a b : Value O) :
  36 ≤ idx < length (heap h) →
  let h2 := dropObject idx (dropObject idx h) in
  ∃ h3 h4,
    addHeapObject a h2 = Some (idx, h3) ∧
    addHeapObject b h3 = Some (idx, h4) ∧
    getObject idx h4 = b ∧
    heapNext h4 = a.
Proof.
  intros [Hidx Hlt] h2. subst h2.
  unfold dropObject. rewrite !decide_False by lia. cbn [heap heapNext].
  assert (Hw : ∀ (l : list (Value O)) v,
             length l = length (heap h) → write l idx v = <[idx := v]> l).
  { intros l v Hl. unfold write. rewrite decide_True; [done | lia]. }
  rewrite (Hw (heap h)) by done.
  rewrite Hw by (by rewrite length_insert).
  rewrite list_insert_insert_eq.
  exists {| heap := <[idx := a]> (heap h); heapNext := Number idx |},
         {| heap := <[idx := b]> (heap h); heapNext := a |}.
  split; [|split; [|split; [|done]]].
  - unfold addHeapObject. cbn [heap heapNext].
    rewrite decide_False by (rewrite length_insert; lia).
    rewrite Hw by (by rewrite length_insert).
    rewrite list_insert_insert_eq. unfold read.
    by rewrite list_lookup_insert_eq.
  - unfold addHeapObject. cbn [heap heapNext].
    rewrite decide_False by (rewrite length_insert; lia).
    rewrite Hw by (by rewrite length_insert).
    rewrite list_insert_insert_eq. unfold read.
    by rewrite list_lookup_insert_eq.
  - unfold getObject, read. cbn [heap].
    by rewrite list_lookup_insert_eq.
Qed.

Lemma dropObject_twice_aliases_witness :
  ∃ h3 h4,
    addHeapObject (Other "x")
      (dropObject 36 (dropObject 36
         {| heap := heap oneFree; heapNext := Number 37 |}))
    = Some (36, h3) ∧
    addHeapObject (Other "y") h3 = Some (36, h4) ∧
    getObject 36 h4 = Other "y" ∧
    heapNext h4 = Other "x".
Proof.
  apply (dropObject_twice_aliases
           {| heap := heap oneFree; heapNext := Number 37 |} 36
           (Other "x") (Other "y")).
  cbn. lia.
Defined.

End WasmHeapProperties.

(** ** More on [VerifiableCredentialBuilder] *)

Section BuilderProperties.
Import VerifiableCredentialBuilder Conditions.

Lemma build_guarded I this issuer isPublic w ctx v t dh :
  guarded I this ctx v t dh →
  build I this issuer isPublic w =
  assemble I this issuer (default false isPublic) ctx v t dh w.
Proof.
  intros (Hcheck & Hc & Hv & Ht & Hdh & Tv & Tt & Tdh & Te).
  unfold build.
  rewrite (bind_Returned_l _ _ w tt w)
    by (unfold assert; rewrite Hcheck; reflexivity).
  rewrite Hc, Hv, Ht, Hdh, Tv, Tt, Tdh, Te. reflexivity.
Qed.

(** X6: a tested field that is set to a falsy value counts as missing:
    with the version or the digest hash type set to the empty string, or the
    issuance date set to 0, [build] throws and asks nothing of the clock or
    the signer. *)
Theorem build_throws_on_falsy_field (I : Imports) (this : Builder)
    (issuer : Did) (isPublic : option bool) (w : World) :
  version this = Some "" ∨ issuanceDate this = Some 0%Z ∨
  digestHashType this = Some "" →
  ∃ e, build I this issuer isPublic w = (Threw e, w).
Proof.
  intros H. unfold build, bind, assert.
  destruct (checkSubject I (raw this)); cbn; [|eauto].
  destruct (context this), (version this) as [v|],
    (issuanceDate this) as [t|], (digestHashType this) as [dh|];
    try (eexists; reflexivity).
  destruct H as [[= ->]|[[= ->]|[= ->]]]; cbn;
    rewrite ?andb_false_r; cbn; eexists; reflexivity.
Qed.

Lemma build_throws_on_falsy_field_witness :
  ∃ e, build Sample.vcImports (setIssuanceDate Sample.builder 0)
         Sample.issuer None Sample.world = (Threw e, Sample.world).
Proof.
  apply build_throws_on_falsy_field. right. left. reflexivity.
Defined.

(** X7: for [build], [setExpirationDate(0)] is [setExpirationDate(null)]:
    the guard holds, the digest payload has no expiration date and the
    credential gets no [expirationDate] field, so both builders give the
    same result and leave the same world. *)
Theorem build_zero_expiration_is_null (I : Imports) (this : Builder)
    (issuer : Did) (isPublic : option bool) (w : World) :
  build I (setExpirationDate this (Some 0%Z)) issuer isPublic w =
  build I (setExpirationDate this None) issuer isPublic w ∧
  ∀ vc w',
    build I (setExpirationDate this (Some 0%Z)) issuer isPublic w
    = (Returned vc, w') →
    vc_expirationDate vc = None.
Proof.
  split; [reflexivity|].
  intros vc w' H. apply build_Returned in H
    as (ctx & v & t & dh & d & url & s & _ & _ & _ & _ & _ & _ & _ & -> & _).
  apply credential_fields.
Qed.

Lemma build_zero_expiration_is_null_witness :
  build Sample.vcImports (setExpirationDate Sample.unexpiring (Some 0%Z))
    Sample.issuer None Sample.world =
  build Sample.vcImports Sample.builder Sample.issuer None Sample.world.
Proof.
  apply (proj1 (build_zero_expiration_is_null Sample.vcImports
                  Sample.unexpiring Sample.issuer None Sample.world)).
Defined.

(** X8: the digest of a returned credential was computed, with the
    builder's digest hash type, from a payload that can be read off the
    credential itself: the root hash of [calcRoothash] on its subject and
    its first hasher, and its expiration date, holder, ctype and issuance
    date. *)
Theorem build_digest_binds_credential (I : Imports) (this : Builder)
    (issuer : Did) (isPublic : option bool) (w w' : World)
    (vc : VerifiableCredential) :
  build I this issuer isPublic w = (Returned vc, w') →
  ∃ dh d,
    digestHashType this = Some dh ∧
    calcDigest I (vc_version vc)
      {| dp_rootHash :=
           RootHash.rootHash
             (RootHash.calcRoothash (vc_credentialSubject vc)
                (Some (vc_hasher vc).1)
                (if default false isPublic then None else Some ∅));
         dp_expirationDate := vc_expirationDate vc;
         dp_holder := vc_holder vc;
         dp_ctype := vc_ctype vc;
         dp_issuanceDate := vc_issuanceDate vc |} dh = Returned d ∧
    vc_digest vc = digest d ∧
    vc_hasher vc = (hashType (raw this), digest_type d).
Proof.
  intros H. apply build_Returned in H
    as (ctx & v & t & dh & d & url & s & _ & _ & _ & Hdh & Hd & _ & _ & ->
        & _).
  exists dh, d. split; [exact Hdh|].
  unfold credential, digestPayload, commitment in *.
  destruct (default false isPublic),
    (truthyExpirationDate (expirationDate this)); cbn; auto.
Qed.

Lemma build_digest_binds_credential_witness :
  ∃ vc w' d,
    build Sample.vcImports Sample.builder Sample.issuer None Sample.world
    = (Returned vc, w') ∧
    calcDigest Sample.vcImports "1"
      {| dp_rootHash := "0x"; dp_expirationDate := None;
         dp_holder := "did:zk:holder"; dp_ctype := "0xc7";
         dp_issuanceDate := 1667174400000 |} "Keccak256" = Returned d ∧
    vc_digest vc = digest d.
Proof.
  edestruct (build_digest_binds_credential Sample.vcImports Sample.builder
               Sample.issuer None Sample.world)
    as (dh & d & Hdh & Hd & Hdigest & _); [reflexivity|].
  injection Hdh as <-.
  eexists _, _, d. split; [reflexivity|]. split; [exact Hd | exact Hdigest].
Defined.

(** X9: errors of the collaborators pass through [build] unchanged. When
    [calcDigest] throws, or the issuer has no key for the assertion method,
    nothing is asked of the signer or the clock; when the signer throws,
    the one request made is the only trace. *)
Theorem build_propagates_collaborator_errors (I : Imports) (this : Builder)
    (issuer : Did) (isPublic : option bool) (w : World)
    (ctx : list string) (v : VerifiableCredentialVersion) (t : Z)
    (dh : HashType) (e : Error) :
  guarded I this ctx v t dh →
  let payload :=
    digestPayload this t (commitment this (default false isPublic)) in
  (calcDigest I v payload dh = Threw e →
   build I this issuer isPublic w = (Threw e, w)) ∧
  (∀ d, calcDigest I v payload dh = Returned d →
        getKeyUrl issuer "assertionMethod" = Threw e →
        build I this issuer isPublic w = (Threw e, w)) ∧
  (∀ d url, calcDigest I v payload dh = Returned d →
            getKeyUrl issuer "assertionMethod" = Returned url →
            signWithKey issuer (signedMessage I (digest d) v) url = Threw e →
            build I this issuer isPublic w =
            (Threw e,
             record (SignWithKeyUrl (id issuer)
                       (signedMessage I (digest d) v) url) w)).
Proof.
  intros Hguard payload. subst payload.
  rewrite (build_guarded I this issuer isPublic w ctx v t dh Hguard).
  unfold assemble, _signDigest, bind, call, request.
  split; [|split].
  - intros ->. reflexivity.
  - intros d -> ->. reflexivity.
  - intros d url -> -> ->. reflexivity.
Qed.

Lemma build_propagates_collaborator_errors_witness :
  build Sample.vcImports Sample.builder SampleMore.refusing None Sample.world
  = (Threw (CollaboratorError "locked"),
     record (SignWithKeyUrl "did:zk:issuer"
               (signedMessage Sample.vcImports "0xd10x" "1")
               "did:zk:issuer#assertionMethod") Sample.world).
Proof.
  refine (proj2 (proj2 (build_propagates_collaborator_errors Sample.vcImports
            Sample.builder SampleMore.refusing None Sample.world
            ["https://www.w3.org/2018/credentials/v1"] "1" 1667174400000
            "Keccak256" (CollaboratorError "locked") _))
            {| digest := "0xd10x"; digest_type := "Keccak256" |}
            "did:zk:issuer#assertionMethod" _ _ _);
    [repeat split | reflexivity | reflexivity | reflexivity].
Defined.

Lemma fromRawCredential_Returned I rawCredential ctype w this w' :
  fromRawCredential I rawCredential ctype w = (Returned this, w') →
  isRawCredential I rawCredential = true ∧
  ctype_id ctype = rc_ctype rawCredential ∧
  this = {| context := Some (DEFAULT_CONTEXT I);
            version := Some (DEFAULT_VC_VERSION I);
            issuanceDate := Some (clock w (ticks w));
            expirationDate := Undefined;
            raw := Raw_fromRawCredential I rawCredential ctype;
            digestHashType := Some (rc_hasher rawCredential).2 |} ∧
  w' = tick w.
Proof.
  unfold fromRawCredential. intros H. returned H.
  apply assert_Returned in Hcall as [Hraw ->].
  apply assert_Returned in Hcall0 as [Hctype%String.eqb_eq ->].
  apply Date_now_Returned in Hcall1 as [-> ->].
  apply ret_Returned in H as [<- <-]. auto.
Qed.

(** X10: [fromRawCredential] makes a builder only from a raw credential
    whose ctype is the [$id] of the given ctype; otherwise it throws an
    assertion error before reading the clock. The builder has the default
    context and version, the reading of the clock as issuance date, the
    second hasher of the raw credential as digest hash type, and no
    expiration date. *)
Theorem fromRawCredential_guards_and_defaults (I : Imports)
    (rawCredential : RawCredential) (ctype : CType) (w : World) :
  (isRawCredential I rawCredential = false →
   fromRawCredential I rawCredential ctype w =
   (Threw (AssertionError "input is not a RawCredential object"), w)) ∧
  (isRawCredential I rawCredential = true →
   ctype_id ctype ≠ rc_ctype rawCredential →
   fromRawCredential I rawCredential ctype w =
   (Threw (AssertionError "`ctype` is not the raw credential ctype"), w)) ∧
  (isRawCredential I rawCredential = true →
   ctype_id ctype = rc_ctype rawCredential →
   fromRawCredential I rawCredential ctype w =
   (Returned {| context := Some (DEFAULT_CONTEXT I);
                version := Some (DEFAULT_VC_VERSION I);
                issuanceDate := Some (clock w (ticks w));
                expirationDate := Undefined;
                raw := Raw_fromRawCredential I rawCredential ctype;
                digestHashType := Some (rc_hasher rawCredential).2 |},
    tick w)).
Proof.
  unfold fromRawCredential, bind, assert. split; [|split].
  - intros ->. reflexivity.
  - intros -> Hne%String.eqb_neq. cbn. rewrite Hne. reflexivity.
  - intros -> Heq%String.eqb_eq. cbn. rewrite Heq. reflexivity.
Qed.

Lemma fromRawCredential_guards_and_defaults_witness :
  ∃ this,
    fromRawCredential Sample.vcImports SampleMore.rawCredential
      SampleMore.ctype Sample.world = (Returned this, tick Sample.world) ∧
    digestHashType this = Some "Keccak256".
Proof.
  eexists. split.
  - apply fromRawCredential_guards_and_defaults; reflexivity.
  - reflexivity.
Defined.

(** X11: a credential built from the builder that [fromRawCredential]
    returned, with only the expiration date set in between, has the default
    context and version, the first reading of the clock as issuance date and
    the second as the creation time of its proof; its expiration date is the
    truthy timestamp that was set, if any. *)
Theorem fromRawCredential_then_build (I : Imports)
    (rawCredential : RawCredential) (ctype : CType) (expiration : option Z)
    (issuer : Did) (isPublic : option bool) (w w1 w2 : World)
    (this : Builder) (vc : VerifiableCredential) :
  fromRawCredential I rawCredential ctype w = (Returned this, w1) →
  build I (setExpirationDate this expiration) issuer isPublic w1
  = (Returned vc, w2) →
  vc_context vc = DEFAULT_CONTEXT I ∧
  vc_version vc = DEFAULT_VC_VERSION I ∧
  vc_issuanceDate vc = clock w (ticks w) ∧
  (∃ p, vc_proof vc = [p] ∧ created p = clock w (S (ticks w))) ∧
  vc_expirationDate vc =
    (t ← expiration; if truthy_number t then Some t else None) ∧
  ticks w2 = S (S (ticks w)).
Proof.
  intros Hfrom Hbuild.
  apply fromRawCredential_Returned in Hfrom as (_ & _ & -> & ->).
  apply build_Returned in Hbuild
    as (ctx & v & t & dh & d & url & s & [= <-] & [= <-] & [= <-] & _ & _ & _
        & _ & -> & ->).
  match goal with
  | |- context [credential ?b ?i ?pub ?c ?v ?t ?r ?d ?p] =>
      pose proof (credential_fields b i pub c v t r d p)
        as (-> & -> & -> & _ & _ & -> & _ & _ & ->)
  end.
  repeat split; [eexists; split; reflexivity|].
  destruct expiration; reflexivity.
Qed.

Lemma fromRawCredential_then_build_witness :
  ∃ this w1 vc w2,
    fromRawCredential Sample.vcImports SampleMore.rawCredential
      SampleMore.ctype Sample.world = (Returned this, w1) ∧
    build Sample.vcImports (setExpirationDate this None) Sample.issuer None w1
    = (Returned vc, w2) ∧
    vc_issuanceDate vc = 1667174400000%Z ∧
    ticks w2 = 2.
Proof.
  eexists _, _, _, _.
  split; [vm_compute; reflexivity|]. split; [vm_compute; reflexivity|].
  edestruct (fromRawCredential_then_build Sample.vcImports
               SampleMore.rawCredential SampleMore.ctype None Sample.issuer
               None Sample.world)
    as (_ & _ & Hdate & _ & _ & Hticks);
    [vm_compute; reflexivity | vm_compute; reflexivity |].
  split; [exact Hdate | exact Hticks].
Defined.

(** X12: how the chained setters compose. Two calls that write the same
    field leave what the second call alone leaves; two calls that write
    different fields can be swapped. *)
Theorem setters_compose (this : Builder) (s1 s2 : Setter) :
  (sameField s1 s2 = true →
   applySetter (applySetter this s1) s2 = applySetter this s2) ∧
  (sameField s1 s2 = false →
   applySetter (applySetter this s1) s2 =
   applySetter (applySetter this s2) s1).
Proof.
  split; destruct s1, s2; cbn; intros H;
    first [discriminate H | reflexivity].
Qed.

Lemma setters_compose_witness :
  chain (new Sample.raw)
    [SetVersion "0"; SetIssuanceDate 1; SetVersion "1"] =
  chain (new Sample.raw) [SetVersion "1"; SetIssuanceDate 1].
Proof.
  unfold chain. cbn [foldl].
  rewrite (proj2 (setters_compose (new Sample.raw) (SetVersion "0")
                    (SetIssuanceDate 1)) eq_refl).
  rewrite (proj1 (setters_compose
                    (applySetter (new Sample.raw) (SetIssuanceDate 1))
                    (SetVersion "0") (SetVersion "1")) eq_refl).
  apply (proj2 (setters_compose (new Sample.raw) (SetIssuanceDate 1)
                  (SetVersion "1")) eq_refl).
Defined.

End BuilderProperties.

(** ** More on the [Credential] class and on [keyTypeToSignatureType] *)

Section CredentialProperties.
Import Credential.

Lemma keyTypeToSignatureType_unknown (type : string) :
  type ≠ "EcdsaSecp256k1VerificationKey2019" →
  type ≠ "Ed25519VerificationKey2020" →
  Utils.keyTypeToSignatureType type =
  Threw (ThrownError ("Can not transform type: " ++ type)).
Proof.
  intros Hne1%String.eqb_neq Hne2%String.eqb_neq.
  unfold Utils.keyTypeToSignatureType. by rewrite Hne1, Hne2.
Qed.

(** X13: [keyTypeToSignatureType] knows two key types. It returns exactly for
    them, it maps them to different signature types, and for any other type
    it throws an error that names the type. *)
Theorem keyTypeToSignatureType_cases (type : string) :
  (∀ s, Utils.keyTypeToSignatureType type = Returned s ↔
        (type = "EcdsaSecp256k1VerificationKey2019" ∧
         s = "EcdsaSecp256k1Signature2019") ∨
        (type = "Ed25519VerificationKey2020" ∧
         s = "Ed25519Signature2018")) ∧
  (type ≠ "EcdsaSecp256k1VerificationKey2019" →
   type ≠ "Ed25519VerificationKey2020" →
   Utils.keyTypeToSignatureType type =
   Threw (ThrownError ("Can not transform type: " ++ type))) ∧
  (∀ type' s, Utils.keyTypeToSignatureType type = Returned s →
              Utils.keyTypeToSignatureType type' = Returned s →
              type = type').
Proof.
  assert (Hcases : ∀ ty s, Utils.keyTypeToSignatureType ty = Returned s ↔
            (ty = "EcdsaSecp256k1VerificationKey2019" ∧
             s = "EcdsaSecp256k1Signature2019") ∨
            (ty = "Ed25519VerificationKey2020" ∧
             s = "Ed25519Signature2018")).
  { intros ty s. unfold Utils.keyTypeToSignatureType.
    destruct (String.eqb_spec ty "EcdsaSecp256k1VerificationKey2019")
      as [->|Hne1].
    - split; [intros [= <-]; auto|].
      intros [[_ ->]|[[=] _]]. reflexivity.
    - destruct (String.eqb_spec ty "Ed25519VerificationKey2020")
        as [->|Hne2].
      + split; [intros [= <-]; auto|].
        intros [[[=] _]|[_ ->]]. reflexivity.
      + split; [discriminate|]. intros [[-> _]|[-> _]]; done. }
  split; [apply Hcases|]. split.
  - apply keyTypeToSignatureType_unknown.
  - intros type' s H1%Hcases H2%Hcases.
    destruct H1 as [[-> ->]|[-> ->]], H2 as [[-> Hs]|[-> Hs]];
      first [reflexivity | discriminate Hs].
Qed.

Lemma keyTypeToSignatureType_cases_witness :
  Utils.keyTypeToSignatureType "X25519KeyAgreementKey2019" =
  Threw (ThrownError "Can not transform type: X25519KeyAgreementKey2019").
Proof.
  apply (proj1 (proj2 (keyTypeToSignatureType_cases
                         "X25519KeyAgreementKey2019")));
    discriminate.
Defined.

(** X14: [getRawCredential] returns exactly when the context is set and the
    ctype, the issuance date, the credential subject, the issuer and the
    holder are set to truthy values; an issuance date of 0 or a falsy
    subject makes it throw. What it returns repeats these fields and the
    expiration date, wraps the issuer in a list and has version ['0']. *)
Theorem getRawCredential_returns_iff (this : Credential)
    (r : RawCredential) :
  getRawCredential this = Returned r ↔
  ∃ c ct t s i h,
    context this = Some c ∧ ctype this = Some ct ∧
    issuanceDate this = Some t ∧ credentialSubject this = Some s ∧
    issuer this = Some i ∧ holder this = Some h ∧
    truthy_string ct = true ∧ truthy_number t = true ∧
    truthy_json s = true ∧ truthy_string i = true ∧
    truthy_string h = true ∧
    r = {| raw_context := c; raw_version := "0"; raw_ctype := ct;
           raw_issuanceDate := t;
           raw_expirationDate := expirationDate this;
           raw_credentialSubject := s;
           raw_credentialSubjectHashes :=
             RootHash.hashes (RootHash.calcRoothash s (hashType this) None);
           raw_credentialSubjectNonceMap :=
             RootHash.nonceMap (RootHash.calcRoothash s (hashType this) None);
           raw_issuer := [i]; raw_holder := h |}.
Proof.
  unfold getRawCredential. split.
  - destruct (context this) as [c|], (ctype this) as [ct|],
      (issuanceDate this) as [t|], (credentialSubject this) as [s|],
      (issuer this) as [i|], (holder this) as [h|]; try discriminate.
    destruct (truthy_string ct) eqn:Tct, (truthy_number t) eqn:Tt,
      (truthy_json s) eqn:Ts, (truthy_string i) eqn:Ti,
      (truthy_string h) eqn:Th; try discriminate.
    cbn. intros [= <-]. exists c, ct, t, s, i, h. auto 15.
  - intros (c & ct & t & s & i & h & -> & -> & -> & -> & -> & -> & -> & ->
            & -> & -> & -> & ->). reflexivity.
Qed.

Lemma getRawCredential_returns_iff_witness :
  ∃ r, getRawCredential Sample.unsigned = Returned r ∧
       raw_issuer r = ["did:zk:issuer"].
Proof.
  eexists. split.
  - apply getRawCredential_returns_iff.
    eexists _, _, _, _, _, _. repeat split.
  - reflexivity.
Defined.

(** [signProof] writes the digest and the proof and nothing else. *)
Lemma signProof_frame I this did w this' w' :
  signProof I this did w = (Returned this', w') →
  ∃ d p, this' = setProof (setDigest this d) p.
Proof.
  unfold signProof. intros H. returned H.
  apply ret_Returned in H as [<- _]. eauto.
Qed.

(** X15: after [signProof] has returned, [getVC] gives the raw credential of
    the instance as it was before signing, together with the new digest and
    the new proof, provided the digest is not the empty string; with the
    same proviso it throws only if [getRawCredential] throws, and then with
    the same error. *)
Theorem signProof_then_getVC (I : Imports) (this this' : Credential)
    (did : Did) (w w' : World) :
  signProof I this did w = (Returned this', w') →
  ∃ d p,
    digest this' = Some d ∧ proof this' = Some p ∧
    proofPurpose p = "assertionMethod" ∧
    getRawCredential this' = getRawCredential this ∧
    (truthy_string d = true →
     getVC this' =
     match getRawCredential this with
     | Returned raw =>
         Returned {| vc_raw := raw; vc_digest := d; vc_proof := [p] |}
     | Threw e => Threw e
     end).
Proof.
  intros H.
  pose proof (signProof_frame I _ _ _ _ _ H) as (d0 & p0 & Hframe).
  apply signProof_Returned in H
    as (d & s & signatureType & _ & _ & Hd & Hp & _).
  eexists _, _. split; [exact Hd|]. split; [exact Hp|].
  split; [reflexivity|].
  assert (Hraw : getRawCredential this' = getRawCredential this)
    by (subst this'; reflexivity).
  split; [exact Hraw|].
  intros Td. unfold getVC. rewrite Hraw, Hd, Hp, Td. reflexivity.
Qed.

Lemma signProof_then_getVC_witness :
  ∃ this' w' vc,
    signProof Sample.credentialImports Sample.unsigned Sample.holder
      Sample.world = (Returned this', w') ∧
    getVC this' = Returned vc ∧
    vc_digest vc = "0xd00x".
Proof.
  destruct (signProof Sample.credentialImports Sample.unsigned Sample.holder
              Sample.world) as [[this'|e] w'] eqn:Hsign;
    [|vm_compute in Hsign; discriminate Hsign].
  destruct (signProof_then_getVC _ _ _ _ _ _ Hsign)
    as (d & p & Hd & _ & _ & _ & HgetVC).
  vm_compute in Hsign. injection Hsign as <- <-.
  injection Hd as <-.
  eexists _, _, _. split; [reflexivity|].
  split; [apply HgetVC; reflexivity | reflexivity].
Defined.

(** X16: when the signer's key is of a type [keyTypeToSignatureType] does
    not know, [signProof] throws that function's error after the signature
    has been asked for: the request is made, the clock is not read, and no
    digest or proof is stored. *)
Theorem signProof_unknown_key_type (I : Imports) (this : Credential)
    (did : Did) (w : World) (subject : AnyJson) (h ct : string)
    (d : DigestResult) (s : SignedByPurpose) :
  credentialSubject this = Some subject → truthy_json subject = true →
  holder this = Some h → truthy_string h = true →
  ctype this = Some ct → truthy_string ct = true →
  calcDigest I
    {| dp_rootHash :=
         RootHash.rootHash (RootHash.calcRoothash subject (hashType this) None);
       dp_expirationDate := expirationDate this;
       dp_holder := h; dp_ctype := ct |} (hashType this) = Returned d →
  signWithKey did "assertionMethod" (dr_digest d) = Returned s →
  keyType s ≠ "EcdsaSecp256k1VerificationKey2019" →
  keyType s ≠ "Ed25519VerificationKey2020" →
  signProof I this did w =
  (Threw (ThrownError ("Can not transform type: " ++ keyType s)),
   record (SignWithPurpose (id did) "assertionMethod"
             (MessageHex (dr_digest d))) w).
Proof.
  intros Hs Ts Hh Th Hct Tct Hd Hsign Hne1 Hne2.
  pose proof (keyTypeToSignatureType_unknown (keyType s)) as Hthrow.
  unfold signProof.
  rewrite (bind_Returned_l _ _ w subject w)
    by (unfold assertField; rewrite Hs, Ts; reflexivity).
  rewrite (bind_Returned_l _ _ w h w)
    by (unfold assertField; rewrite Hh, Th; reflexivity).
  rewrite (bind_Returned_l _ _ w ct w)
    by (unfold assertField; rewrite Hct, Tct; reflexivity).
  rewrite (bind_Returned_l _ _ w d w)
    by (unfold call; rewrite Hd; reflexivity).
  erewrite bind_Returned_l
    by (unfold request; rewrite Hsign; reflexivity).
  apply bind_Threw_l. unfold call. rewrite (Hthrow Hne1 Hne2). reflexivity.
Qed.

Lemma signProof_unknown_key_type_witness :
  signProof Sample.credentialImports Sample.unsigned SampleMore.x25519Holder
    Sample.world =
  (Threw (ThrownError "Can not transform type: X25519KeyAgreementKey2019"),
   record (SignWithPurpose "did:zk:holder" "assertionMethod"
             (MessageHex "0xd00x")) Sample.world).
Proof.
  apply (signProof_unknown_key_type Sample.credentialImports Sample.unsigned
           SampleMore.x25519Holder Sample.world Sample.CONTENTS1
           "did:zk:holder" "0xc7"
           {| dr_digest := "0xd00x"; dr_type := "Keccak256" |}
           {| didUrl := "did:zk:holder#assertionMethod"; signature := [];
              keyType := "X25519KeyAgreementKey2019" |});
    first [reflexivity | discriminate].
Defined.

(** X17: [signProof] checks the credential subject, the holder and the
    ctype, in this order, before anything else: when one of them is unset or
    falsy it throws the assertion error of the first such field and has
    asked nothing of the signer or the clock. *)
Theorem signProof_asserts_fields (I : Imports) (this : Credential)
    (did : Did) (w : World) :
  (from_option truthy_json false (credentialSubject this) = false →
   signProof I this did w =
   (Threw (AssertionError "credentialSubject is null"), w)) ∧
  (from_option truthy_json false (credentialSubject this) = true →
   from_option truthy_string false (holder this) = false →
   signProof I this did w = (Threw (AssertionError "holder is null"), w)) ∧
  (from_option truthy_json false (credentialSubject this) = true →
   from_option truthy_string false (holder this) = true →
   from_option truthy_string false (ctype this) = false →
   signProof I this did w = (Threw (AssertionError "ctype is null"), w)).
Proof.
  unfold signProof, bind, assertField.
  destruct (credentialSubject this) as [s|]; cbn;
    [destruct (truthy_json s); cbn|];
    (split; [|split]); try discriminate; try reflexivity;
    destruct (holder this) as [h|]; cbn;
    try (destruct (truthy_string h); cbn);
    try discriminate; try reflexivity;
    intros _ _; destruct (ctype this) as [ct|]; cbn;
    try (destruct (truthy_string ct); cbn);
    try discriminate; reflexivity.
Qed.

Lemma signProof_asserts_fields_witness :
  signProof Sample.credentialImports
    (setDigest (setProof Sample.unsigned
                  {| proof_type := ""; created := 0; verificationMethod := "";
                     proofPurpose := ""; proofValue := "" |}) "0x")
    Sample.holder Sample.world
  ≠ (Threw (AssertionError "credentialSubject is null"), Sample.world) ∧
  signProof Sample.credentialImports
    {| context := None; ctype := None; issuanceDate := None;
       expirationDate := None; credentialSubject := Some (JNumber 0);
       issuer := None; holder := None; digest := None; proof := None;
       hashType := None |} Sample.holder Sample.world
  = (Threw (AssertionError "credentialSubject is null"), Sample.world).
Proof.
  split.
  - vm_compute. discriminate.
  - apply (proj1 (signProof_asserts_fields Sample.credentialImports _
                    Sample.holder Sample.world)). reflexivity.
Defined.

(** [getVC] throws the error of [getRawCredential] when that throws,
    whatever the digest and the proof; otherwise it returns when the digest
    is set and not empty and the proof is set, and else throws the error
    that asks for a proof. *)
Lemma getVC_cases (this : Credential) :
  (∀ e, getRawCredential this = Threw e → getVC this = Threw e) ∧
  (∀ raw, getRawCredential this = Returned raw →
     match digest this, proof this with
     | Some d, Some p =>
         if truthy_string d
         then getVC this =
              Returned {| vc_raw := raw; vc_digest := d; vc_proof := [p] |}
         else getVC this =
              Threw (ThrownError
                       "Please sign a proof, or set Digest and proof")
     | _, _ =>
         getVC this =
         Threw (ThrownError "Please sign a proof, or set Digest and proof")
     end).
Proof.
  unfold getVC. split.
  - intros e ->. reflexivity.
  - intros raw ->.
    destruct (digest this) as [d|], (proof this) as [p|]; try reflexivity.
    destruct (truthy_string d); reflexivity.
Qed.

End CredentialProperties.

(** ** Verifying a proof *)

Section ProofVerifyProperties.
Import VerifiableCredentialBuilder ProofVerify.
Context {R : Type}.

(** X18: building and then verifying. For a credential that [build]
    returned, [proofVerify] on the message that was signed and on the proof
    of the credential asks [didVerify] about exactly what the issuer's
    signer answered: its signature, its signature type and the id of its
    key, provided [decodeMultibase] undoes the encoding of the signature. *)
Theorem build_then_proofVerify (I : VerifiableCredentialBuilder.Imports)
    (V : ProofVerify.Imports R) (this : Builder) (issuer : Did)
    (isPublic : option bool) (w w' : World) (vc : VerifiableCredential) :
  build I this issuer isPublic w = (Returned vc, w') →
  ∃ p s url,
    let message := signedMessage I (vc_digest vc) (vc_version vc) in
    vc_proof vc = [p] ∧
    getKeyUrl issuer "assertionMethod" = Returned url ∧
    signWithKey issuer message url = Returned s ∧
    ∀ r w0,
      decodeMultibase V (proofValue p) = Returned (signature s) →
      proofVerify V message p r w0 =
      didVerify V message (signature s) (signed_type s) (signed_id s) r w0.
Proof.
  intros H. apply build_Returned in H
    as (ctx & v & t & dh & d & url & s & _ & _ & _ & _ & _ & Hurl & Hs & ->
        & _).
  match goal with
  | |- context [credential ?b ?i ?pub ?c ?v ?t ?r ?d ?p] =>
      pose proof (credential_fields b i pub c v t r d p)
        as (_ & -> & _ & _ & -> & -> & _)
  end.
  eexists _, s, url. cbn zeta. split; [reflexivity|].
  split; [exact Hurl|]. split; [exact Hs|].
  intros r w0 Hdecode. unfold proofVerify. cbn [proofValue] in *.
  erewrite bind_Returned_l by (unfold call; rewrite Hdecode; reflexivity).
  destruct r; reflexivity.
Qed.

End ProofVerifyProperties.

Lemma build_then_proofVerify_witness :
  ∃ vc w',
    VerifiableCredentialBuilder.build Sample.vcImports Sample.builder
      Sample.issuer None Sample.world = (Returned vc, w') ∧
    ∀ p, VerifiableCredentialBuilder.vc_proof vc = [p] →
         ProofVerify.proofVerify SampleMore.verifyImports
           (VerifiableCredentialBuilder.signedMessage Sample.vcImports
              (VerifiableCredentialBuilder.vc_digest vc)
              (VerifiableCredentialBuilder.vc_version vc)) p None w'
         = (Returned true, w').
Proof.
  eexists _, _. split; [vm_compute; reflexivity|].
  intros p Hp.
  edestruct (build_then_proofVerify (R := unit) Sample.vcImports
               SampleMore.verifyImports Sample.builder Sample.issuer None
               Sample.world)
    as (p' & s & url & Hp' & Hurl & Hs & Hverify); [vm_compute; reflexivity|].
  rewrite Hp in Hp'. injection Hp' as <-.
  injection Hurl as <-. injection Hs as <-.
  rewrite Hverify; [reflexivity|].
  injection Hp as <-. reflexivity.
Defined.

Section ProofVerifyReads.
Import ProofVerify.
Context {R : Type}.

(** X19: [proofVerify] reads the proof value, the type and the verification
    method of a proof and nothing else: two proofs that agree on these
    verify alike, whatever their purpose and creation time. When the proof
    value does not decode, it throws the decoder's error and [didVerify] is
    not called. *)
Theorem proofVerify_reads_three_fields (V : Imports R) (message : Message)
    (p p' : VcProof) (r : option R) (w : World) :
  (proofValue p = proofValue p' → proof_type p = proof_type p' →
   verificationMethod p = verificationMethod p' →
   proofVerify V message p r w = proofVerify V message p' r w) ∧
  (∀ e, decodeMultibase V (proofValue p) = Threw e →
        proofVerify V message p r w = (Threw e, w)).
Proof.
  unfold proofVerify. split.
  - intros -> -> ->. reflexivity.
  - intros e He. apply bind_Threw_l. unfold call. by rewrite He.
Qed.

End ProofVerifyReads.

Lemma proofVerify_reads_three_fields_witness :
  ProofVerify.proofVerify SampleMore.verifyImports (MessageHex "0xd10x")
    {| proof_type := "EcdsaSecp256k1Signature2019"; created := 1;
       verificationMethod := "did:zk:issuer#assertionMethod";
       proofPurpose := "assertionMethod"; proofValue := "z" |}
    None Sample.world =
  ProofVerify.proofVerify SampleMore.verifyImports (MessageHex "0xd10x")
    {| proof_type := "EcdsaSecp256k1Signature2019"; created := 2;
       verificationMethod := "did:zk:issuer#assertionMethod";
       proofPurpose := "authentication"; proofValue := "z" |}
    None Sample.world.
Proof.
  apply (proofVerify_reads_three_fields (R := unit)); reflexivity.
Defined.

(** ** Publishing a ctype *)

Section PublishProperties.
Import CTypePublish.

(** X20: the hash of a ctype does not depend on any [$schema] or
    [publisher] that the base object brings along: these keys are replaced
    by the schema argument and by the did of the publisher before the
    object is canonicalized and hashed. *)
Theorem getCTypeHash_overrides_base (I : Imports)
    (base : gmap string AnyJson) (publisher : DidUrl)
    (schema : option string) :
  getCTypeHash I base publisher schema =
  getCTypeHash I (delete "$schema" (delete "publisher" base)) publisher
    schema ∧
  ∀ x y,
    getCTypeHash I (<["$schema" := x]> (<["publisher" := y]> base))
      publisher schema
    = getCTypeHash I base publisher schema.
Proof.
  assert (Hobj : ∀ (b : gmap string AnyJson) s p,
            <["publisher" := p]> (<["$schema" := s]> b) =
            <["publisher" := p]>
              (<["$schema" := s]> (delete "$schema" (delete "publisher" b)))).
  { intros b s p. apply map_eq. intros k.
    destruct (decide (k = "publisher")) as [->|Hp];
      [by rewrite !lookup_insert_eq|].
    rewrite !(lookup_insert_ne _ "publisher") by done.
    destruct (decide (k = "$schema")) as [->|Hs];
      [by rewrite !lookup_insert_eq|].
    rewrite !(lookup_insert_ne _ "$schema") by done.
    by rewrite !lookup_delete_ne. }
  assert (Hhash : ∀ b, getCTypeHash I b publisher schema =
            getCTypeHash I (delete "$schema" (delete "publisher" b))
              publisher schema).
  { intros b. unfold getCTypeHash. destruct (parseDid I publisher); [|done].
    by rewrite (Hobj b). }
  split; [apply Hhash|].
  intros x y. rewrite Hhash, (Hhash base). f_equal.
  apply map_eq. intros k.
  destruct (decide (k = "$schema")) as [->|Hs];
    [by rewrite !lookup_delete_eq|].
  rewrite !(lookup_delete_ne _ "$schema") by done.
  destruct (decide (k = "publisher")) as [->|Hp];
    [by rewrite !lookup_delete_eq|].
  rewrite !(lookup_delete_ne _ "publisher") by done.
  by rewrite !lookup_insert_ne.
Qed.

Lemma getCTypeHash_overrides_base_witness :
  getCTypeHash SampleMore.publishImports SampleMore.base "did:zk:publisher"
    None =
  getCTypeHash SampleMore.publishImports
    (delete "$schema" (delete "publisher" SampleMore.base))
    "did:zk:publisher" None.
Proof.
  apply (proj1 (getCTypeHash_overrides_base SampleMore.publishImports
                  SampleMore.base "did:zk:publisher" None)).
Defined.

(** X21: the ctype that [getPublish] returns. The publisher signed the hash
    of the base under the authentication purpose, once; the keys
    [publisher] and [signature] hold the id of the signing key and the
    encoded signature whatever the base holds there; every other key of the
    base is kept with its value, also [$id] and [$schema], which hold the
    hash and the default schema only when the base does not have them. *)
Theorem getPublish_Returned (I : Imports) (base ctype : gmap string AnyJson)
    (publisher : Did) (w w' : World) :
  getPublish I base publisher w = (Returned ctype, w') →
  ∃ hash s,
    getCTypeHash I base (id publisher) None = Returned hash ∧
    signWithKey publisher "authentication" hash = Returned s ∧
    w' = record (SignWithPurpose (id publisher) "authentication"
                   (MessageHex hash)) w ∧
    ctype !! "publisher" = Some (JString (signed_id s)) ∧
    ctype !! "signature" = Some (JString (base58Encode I (signature s))) ∧
    (∀ k v, k ≠ "publisher" → k ≠ "signature" →
            base !! k = Some v → ctype !! k = Some v) ∧
    (base !! "$id" = None → ctype !! "$id" = Some (JString hash)) ∧
    (base !! "$schema" = None →
     ctype !! "$schema" = Some (JString (DEFAULT_CTYPE_SCHEMA I))) ∧
    dom ctype = dom base ∪ {["$id"; "$schema"; "publisher"; "signature"]}.
Proof.
  unfold getPublish. intros H. returned H.
  apply call_Returned in Hcall as [Hhash ->].
  apply request_Returned in Hcall0 as [Hs ->].
  apply ret_Returned in H as [<- <-].
  exists a, a0. split; [exact Hhash|]. split; [exact Hs|].
  split; [reflexivity|]. split.
  { by rewrite lookup_insert_ne, lookup_insert_eq. }
  split; [by rewrite lookup_insert_eq|]. split.
  { intros k v Hp Hsig Hk. rewrite !lookup_insert_ne by done.
    by apply lookup_union_Some_l. }
  split.
  { intros Hid. rewrite !lookup_insert_ne by done.
    rewrite lookup_union_r by done.
    by rewrite lookup_insert_ne, lookup_singleton_eq. }
  split.
  { intros Hschema. rewrite !lookup_insert_ne by done.
    rewrite lookup_union_r by done. by rewrite lookup_insert_eq. }
  rewrite !dom_insert_L, dom_union_L, dom_insert_L, dom_singleton_L.
  apply set_eq. intros k.
  rewrite !elem_of_union, !elem_of_singleton. tauto.
Qed.

Lemma getPublish_Returned_witness :
  ∃ ctype w',
    getPublish SampleMore.publishImports SampleMore.base SampleMore.publisher
      Sample.world = (Returned ctype, w') ∧
    ctype !! "publisher" = Some (JString "did:zk:publisher#authentication") ∧
    ctype !! "title" = Some (JString "member").
Proof.
  destruct (getPublish SampleMore.publishImports SampleMore.base
              SampleMore.publisher Sample.world)
    as [[ctype|e] w'] eqn:Hpublish;
    [|unfold getPublish, bind, call, request in Hpublish; cbn in Hpublish;
      discriminate Hpublish].
  destruct (getPublish_Returned _ _ _ _ _ _ Hpublish)
    as (hash & s & _ & Hs & _ & Hpublisher & _ & Hkept & _).
  injection Hs as <-.
  exists ctype, w'. split; [reflexivity|]. split; [exact Hpublisher|].
  apply Hkept; [discriminate | discriminate |].
  unfold SampleMore.base. by rewrite lookup_insert_eq.
Defined.

End PublishProperties.
